(** * ReactStreamlitDemo: the Lambda handlers of [lambda/app.py]

    A shallow embedding of the request handlers of the Snowflake bridge
    ([cortex_analyst_chat_handler], [execute_sql_handler],
    [test_snowflake_handler], [get_snowflake_connection]) and of the event
    builder of [local_server.py], followed by the properties of the
    specification that concern them.

    Python values are an inductive type with the dynamic checks written out
    (truthiness, [.get] on a non-dict, [json.dumps] on a non-serialisable
    object).  Exceptions are values of an error monad that also threads the
    state of the outside world: the network calls made so far and the
    connections and cursors that are still open.  The libraries the handlers
    call ([json.loads]' decoder, [repr] of a float, [requests.post], the
    Snowflake connector) are parameters. *)

From Stdlib Require Import ZArith String Ascii List Lia Bool.
From Stdlib Require Import Numbers.DecimalString.
From Stdlib Require Import Floats.SpecFloat.
Import ListNotations.

Set Warnings "-register-all".

Open Scope string_scope.
Open Scope Z_scope.

(* ================================================================== *)
(** ** Python strings *)
(* ================================================================== *)

Module PyStr.

(** The double quote character, and a string between double quotes. *)
Definition dquote : ascii := ascii_of_nat 34.
Definition backslash : ascii := ascii_of_nat 92.

Definition str1 (c : ascii) : string := String c EmptyString.

Definition quoted (s : string) : string :=
  String dquote (s ++ str1 dquote).

(** [s.startswith(p)] *)
Fixpoint starts_with (p s : string) : bool :=
  match p, s with
  | EmptyString, _ => true
  | String a p', String b s' => Ascii.eqb a b && starts_with p' s'
  | String _ _, EmptyString => false
  end.

(** [s[n:]] *)
Fixpoint drop (n : nat) (s : string) : string :=
  match n, s with
  | S k, String _ s' => drop k s'
  | _, _ => s
  end.

(** [sub in s] *)
Fixpoint contains (sub s : string) : bool :=
  starts_with sub s ||
  match s with
  | EmptyString => false
  | String _ s' => contains sub s'
  end.

(** [s.split(sep)[0]] for a non-empty [sep]: the text before the first
    occurrence of [sep], the whole of [s] when there is none. *)
Fixpoint split_head (sep s : string) : string :=
  if starts_with sep s then EmptyString
  else match s with
       | EmptyString => EmptyString
       | String c s' => String c (split_head sep s')
       end.

(** [s.replace(old, new)] for a non-empty [old]: every occurrence, found
    left to right without overlap, gives way to [new].  [skip] counts the
    characters of the occurrence being consumed. *)
Fixpoint replace_from (old new : string) (skip : nat) (s : string) : string :=
  match s with
  | EmptyString => EmptyString
  | String c s' =>
      match skip with
      | S k => replace_from old new k s'
      | O =>
          if starts_with old s
          then new ++ replace_from old new (Nat.pred (String.length old)) s'
          else String c (replace_from old new O s')
      end
  end.

Definition replace (old new s : string) : string :=
  replace_from old new O s.

(** The string with [f] applied to each character. *)
Fixpoint map_chars (f : ascii -> ascii) (s : string) : string :=
  match s with
  | EmptyString => EmptyString
  | String c r => String (f c) (map_chars f r)
  end.

(** [str(n)] for an [int]. *)
Definition of_Z (n : Z) : string := NilZero.string_of_int (Z.to_int n).

Fixpoint repeat_char (c : ascii) (n : nat) : string :=
  match n with
  | O => EmptyString
  | S k => String c (repeat_char c k)
  end.

(** ["%0<w>d" % n] for [0 <= n]. *)
Definition zero_pad (w : nat) (n : Z) : string :=
  let s := of_Z n in
  repeat_char "0"%char (w - String.length s) ++ s.

(** [sep.join(parts)] *)
Fixpoint join (sep : string) (parts : list string) : string :=
  match parts with
  | [] => EmptyString
  | [p] => p
  | p :: rest => p ++ sep ++ join sep rest
  end.

(** The value of a decimal digit character. *)
Definition digit_value (c : ascii) : option Z :=
  let n := Z.of_nat (nat_of_ascii c) in
  if (48 <=? n) && (n <=? 57) then Some (n - 48) else None.

(** [int(s)] for a string of decimal digits. *)
Fixpoint digits_value (acc : Z) (s : string) : option Z :=
  match s with
  | EmptyString => Some acc
  | String c s' =>
      match digit_value c with
      | Some d => digits_value (10 * acc + d) s'
      | None => None
      end
  end.


End PyStr.

(* ================================================================== *)
(** ** Dates, timestamps and decimals: the cells the connector builds *)
(* ================================================================== *)

(** [datetime.date]: year, month, day. *)
Record date := mk_date {
  d_year : Z;
  d_month : Z;
  d_day : Z
}.

(** [datetime.datetime]: a date, a time of day and, for an aware value,
    the offset from UTC in microseconds ([tzinfo.utcoffset]). *)
Record datetime := mk_datetime {
  dt_date : date;
  dt_hour : Z;
  dt_minute : Z;
  dt_second : Z;
  dt_microsecond : Z;
  dt_utcoffset : option Z
}.

(** A finite [decimal.Decimal]: (-1)^sign * coefficient * 10^exponent.
    The connector builds the cells of fixed-point columns from the digits
    the server sends, so they are finite. *)
Record decimal := mk_decimal {
  dec_sign : bool;
  dec_coeff : N;
  dec_exp : Z
}.





(** [date.isoformat()]: ["%04d-%02d-%02d"]. *)
Definition date_isoformat (d : date) : string :=
  PyStr.zero_pad 4 (d_year d) ++ "-" ++ PyStr.zero_pad 2 (d_month d) ++ "-" ++
  PyStr.zero_pad 2 (d_day d).

(** [_format_time] with [timespec='auto']: the microseconds are printed
    when they are not zero. *)
Definition format_time (hh mm ss us : Z) : string :=
  PyStr.zero_pad 2 hh ++ ":" ++ PyStr.zero_pad 2 mm ++ ":" ++ PyStr.zero_pad 2 ss ++
  (if us =? 0 then EmptyString else "." ++ PyStr.zero_pad 6 us).

(** [_format_offset]: sign, hours and minutes, then the seconds and the
    microseconds when the offset has any. *)
Definition format_offset (off : option Z) : string :=
  match off with
  | None => EmptyString
  | Some o =>
      let sign := if o <? 0 then "-" else "+" in
      let a := Z.abs o in
      let hh := a / 3600000000 in
      let r := a mod 3600000000 in
      let mm := r / 60000000 in
      let ss := r mod 60000000 in
      sign ++ PyStr.zero_pad 2 hh ++ ":" ++ PyStr.zero_pad 2 mm ++
      (if ss =? 0 then EmptyString
       else ":" ++ PyStr.zero_pad 2 (ss / 1000000) ++
            (if ss mod 1000000 =? 0 then EmptyString
             else "." ++ PyStr.zero_pad 6 (ss mod 1000000)))
  end.

(** [datetime.isoformat()] with the default separator. *)
Definition datetime_isoformat (t : datetime) : string :=
  date_isoformat (dt_date t) ++ "T" ++
  format_time (dt_hour t) (dt_minute t) (dt_second t) (dt_microsecond t) ++
  format_offset (dt_utcoffset t).





(** A binary64 float: 53 bits of precision, exponents below 1024. *)
Definition float := spec_float.

Definition b64_prec : Z := 53.
Definition b64_emax : Z := 1024.

(** [float(d)] for a finite [Decimal]: [float(str(d))], the binary64 value
    nearest to the decimal one, ties to even, an infinity past the largest
    finite value. *)
Definition float_of_decimal (d : decimal) : float :=
  match dec_coeff d with
  | N0 => S754_zero (dec_sign d)
  | Npos c =>
      if 0 <=? dec_exp d
      then binary_round b64_prec b64_emax (dec_sign d)
             (c * Z.to_pos (10 ^ dec_exp d))%positive 0
      else
        let '(q, e, l) :=
          SFdiv_core_binary b64_prec b64_emax (Zpos c) 0 (10 ^ (- dec_exp d)) 0 in
        binary_round_aux b64_prec b64_emax (dec_sign d) q e l
  end.


(* ================================================================== *)
(** ** Python values and exceptions *)
(* ================================================================== *)

(** The objects the handlers see: decoded JSON ([None], booleans, integers,
    floats, strings, lists, dicts with string keys), the cells the
    connector builds beyond those ([date], [datetime], [Decimal]) and any
    other object, known by the name of its class ([time], [bytearray],
    [timedelta], ...). *)
Inductive pyval : Type :=
| PNone
| PBool (b : bool)
| PInt (n : Z)
| PFloat (f : float)
| PStr (s : string)
| PList (l : list pyval)
| PDict (d : list (string * pyval))
| PDate (d : date)
| PDatetime (t : datetime)
| PDecimal (d : decimal)
| PObject (cls : string).

(** A dict keeps its keys in insertion order; a key is written once. *)
Definition pydict := list (string * pyval).

Fixpoint dict_get {A : Type} (d : list (string * A)) (k : string) : option A :=
  match d with
  | [] => None
  | (k', v) :: rest => if String.eqb k' k then Some v else dict_get rest k
  end.

(** [d[k] = v] *)
Fixpoint dict_set {A : Type} (d : list (string * A)) (k : string) (v : A)
  : list (string * A) :=
  match d with
  | [] => [(k, v)]
  | (k', v') :: rest =>
      if String.eqb k' k then (k', v) :: rest
      else (k', v') :: dict_set rest k v
  end.

Definition dict_keys {A : Type} (d : list (string * A)) : list string :=
  map fst d.

(** [type(v).__name__] *)
Definition type_name (v : pyval) : string :=
  match v with
  | PNone => "NoneType"
  | PBool _ => "bool"
  | PInt _ => "int"
  | PFloat _ => "float"
  | PStr _ => "str"
  | PList _ => "list"
  | PDict _ => "dict"
  | PDate _ => "date"
  | PDatetime _ => "datetime"
  | PDecimal _ => "Decimal"
  | PObject cls => cls
  end.

(** [bool(v)].  The handlers take the truth value of decoded JSON only; an
    object of another class counts as true, the default of [object]. *)
Definition truthy (v : pyval) : bool :=
  match v with
  | PNone => false
  | PBool b => b
  | PInt n => negb (n =? 0)
  | PFloat (S754_zero _) => false
  | PFloat _ => true
  | PStr s => negb (String.eqb s EmptyString)
  | PList l => match l with [] => false | _ => true end
  | PDict d => match d with [] => false | _ => true end
  | PDate _ => true
  | PDatetime _ => true
  | PDecimal d => negb (N.eqb (dec_coeff d) 0)
  | PObject _ => true
  end.

(** An exception: its class name, [str(e)], and whether its class derives
    from [requests.exceptions.RequestException].  Every exception here
    derives from [Exception]. *)
Record exn := mk_exn {
  exn_class : string;
  exn_message : string;
  exn_is_request : bool
}.

Inductive res (A : Type) : Type :=
| Ok (a : A)
| Raise (e : exn).
Arguments Ok {A} a.
Arguments Raise {A} e.

Definition res_bind {A B : Type} (r : res A) (k : A -> res B) : res B :=
  match r with
  | Ok a => k a
  | Raise e => Raise e
  end.

Section ResMap.
Context {A B : Type}.
Variable f : A -> res B.

(** [f] over a list, left to right, up to the first exception. *)
Fixpoint res_map (l : list A) : res (list B) :=
  match l with
  | [] => Ok []
  | x :: rest =>
      res_bind (f x) (fun y =>
      res_bind (res_map rest) (fun ys => Ok (y :: ys)))
  end.
End ResMap.

Definition TypeError (msg : string) : exn := mk_exn "TypeError" msg false.
Definition AttributeError (msg : string) : exn := mk_exn "AttributeError" msg false.
Definition IndexError (msg : string) : exn := mk_exn "IndexError" msg false.

(** [v.get(k, default)]: a dict method; any other decoded value has no
    attribute [get]. *)
Definition py_get (v : pyval) (k : string) (default : pyval) : res pyval :=
  match v with
  | PDict d =>
      Ok match dict_get d k with
         | Some x => x
         | None => default
         end
  | _ => Raise (AttributeError
                  ("'" ++ type_name v ++ "' object has no attribute 'get'"))
  end.

(** Decoded JSON: what [json.dumps] accepts without a [default] hook. *)
Fixpoint json_safe (v : pyval) : bool :=
  match v with
  | PNone | PBool _ | PInt _ | PFloat _ | PStr _ => true
  | PList l => forallb json_safe l
  | PDict d => forallb (fun kv => json_safe (snd kv)) d
  | PDate _ | PDatetime _ | PDecimal _ | PObject _ => false
  end.

(** Induction over values, through the lists and dicts they nest in. *)
Section PyvalInd.
Variable P : pyval -> Prop.
Hypothesis HNone : P PNone.
Hypothesis HBool : forall b, P (PBool b).
Hypothesis HInt : forall n, P (PInt n).
Hypothesis HFloat : forall f, P (PFloat f).
Hypothesis HStr : forall s, P (PStr s).
Hypothesis HList : forall l, Forall P l -> P (PList l).
Hypothesis HDict : forall d, Forall (fun kv => P (snd kv)) d -> P (PDict d).
Hypothesis HDate : forall d, P (PDate d).
Hypothesis HDatetime : forall t, P (PDatetime t).
Hypothesis HDecimal : forall d, P (PDecimal d).
Hypothesis HObject : forall cls, P (PObject cls).

Fixpoint pyval_nested_ind (v : pyval) : P v :=
  match v with
  | PNone => HNone
  | PBool b => HBool b
  | PInt n => HInt n
  | PFloat f => HFloat f
  | PStr s => HStr s
  | PList l =>
      HList l ((fix go (l : list pyval) : Forall P l :=
                  match l with
                  | [] => Forall_nil _
                  | x :: r => Forall_cons x (pyval_nested_ind x) (go r)
                  end) l)
  | PDict d =>
      HDict d ((fix go (d : list (string * pyval))
                  : Forall (fun kv => P (snd kv)) d :=
                  match d with
                  | [] => Forall_nil _
                  | (k, x) :: r =>
                      Forall_cons (k, x) (pyval_nested_ind x) (go r)
                  end) d)
  | PDate d => HDate d
  | PDatetime t => HDatetime t
  | PDecimal d => HDecimal d
  | PObject cls => HObject cls
  end.
End PyvalInd.

(* ================================================================== *)
(** ** The response envelope and the outside world *)
(* ================================================================== *)

(** The dict every handler returns. *)
Record envelope := mk_envelope {
  statusCode : Z;
  headers : list (string * string);
  body : string
}.

Definition json_headers : list (string * string) :=
  [("Content-Type", "application/json"); ("Access-Control-Allow-Origin", "*")].

(** The keyword arguments of [snowflake.connector.connect]. *)
Record connect_args := mk_connect_args {
  ca_user : option string;
  ca_password : option string;
  ca_account : option string;
  ca_warehouse : string;
  ca_database : option string;
  ca_schema : string;
  ca_login_timeout : Z;
  ca_network_timeout : Z
}.

(** The arguments of [requests.post]. *)
Record http_request := mk_http_request {
  rq_url : string;
  rq_headers : list (string * string);
  rq_json : pyval;
  rq_timeout : Z
}.

(** A [requests.Response]: [status_code] and [text]. *)
Record http_response := mk_http_response {
  status_code : Z;
  text : string
}.

(** What one invocation finds outside: the process environment and the
    outcome of each call to the remote services.  The statement handed to
    the cursor is whatever object the request carried; [sf_description]
    gives the names [desc[0]] of [cursor.description] after it ran. *)
Record world := mk_world {
  environ : string -> option string;
  requests_post : http_request -> res http_response;
  sf_connect : connect_args -> res unit;
  sf_cursor : res unit;
  sf_execute : pyval -> res unit;
  sf_description : pyval -> list string;
  sf_fetchall : pyval -> res (list (list pyval));
  sf_fetchone : pyval -> res pyval
}.

(** A call that leaves the process. *)
Inductive net_call : Type :=
| CallConnect (a : connect_args)
| CallExecute (sql : pyval)
| CallFetch
| CallPost (r : http_request).

(** The state an invocation changes: the calls made, in order, and the
    connections and cursors opened and not yet closed. *)
Record state := mk_state {
  calls : list net_call;
  open_connections : nat;
  open_cursors : nat
}.

Definition initial_state : state := mk_state [] 0 0.

(** Computations that may raise and that change the state either way. *)
Definition M (A : Type) : Type := state -> res A * state.

Definition ret {A : Type} (a : A) : M A := fun st => (Ok a, st).

Definition raise {A : Type} (e : exn) : M A := fun st => (Raise e, st).

Definition bind {A B : Type} (m : M A) (k : A -> M B) : M B :=
  fun st =>
    match m st with
    | (Ok a, st') => k a st'
    | (Raise e, st') => (Raise e, st')
    end.

Definition lift {A : Type} (r : res A) : M A := fun st => (r, st).

(** [try: m  except <matches>: handler] *)
Definition try_except {A : Type} (m : M A) (matches : exn -> bool)
  (handler : exn -> M A) : M A :=
  fun st =>
    match m st with
    | (Ok a, st') => (Ok a, st')
    | (Raise e, st') => if matches e then handler e st' else (Raise e, st')
    end.

Declare Scope py_scope.
Delimit Scope py_scope with py.
Notation "x <- m ;; k" := (bind m (fun x => k))
  (at level 61, m at next level, right associativity) : py_scope.
Notation "m ;;; k" := (bind m (fun _ => k))
  (at level 61, right associativity) : py_scope.

Definition log_call (c : net_call) : M unit :=
  fun st => (Ok tt, mk_state (calls st ++ [c]) (open_connections st) (open_cursors st)).

(* ================================================================== *)
(** ** A reference JSON decoder *)
(* ================================================================== *)

(** The handlers are stated over any decoder.  The examples run them on
    this one, which reads the JSON of RFC 8259 as [json.loads] does, with
    two limits: a [\u] escape is read for code points below 256 only, and
    the message of a decoding error carries no position. *)
Module Sample.

Definition JSONDecodeError : exn :=
  mk_exn "JSONDecodeError" "Expecting value" false.

Definition is_ws (c : ascii) : bool :=
  let n := nat_of_ascii c in
  (n =? 32)%nat || (n =? 9)%nat || (n =? 10)%nat || (n =? 13)%nat.

Fixpoint skip_ws (s : string) : string :=
  match s with
  | String c r => if is_ws c then skip_ws r else s
  | EmptyString => s
  end.

Definition hex_value (c : ascii) : option nat :=
  let n := nat_of_ascii c in
  if (48 <=? n)%nat && (n <=? 57)%nat then Some (n - 48)%nat
  else if (97 <=? n)%nat && (n <=? 102)%nat then Some (n - 87)%nat
  else if (65 <=? n)%nat && (n <=? 70)%nat then Some (n - 55)%nat
  else None.

(** The character a backslash escape stands for. *)
Definition unescape (c : ascii) : option ascii :=
  let n := nat_of_ascii c in
  if (n =? 34)%nat || (n =? 92)%nat || (n =? 47)%nat then Some c
  else if (n =? 98)%nat then Some (ascii_of_nat 8)
  else if (n =? 102)%nat then Some (ascii_of_nat 12)
  else if (n =? 110)%nat then Some (ascii_of_nat 10)
  else if (n =? 114)%nat then Some (ascii_of_nat 13)
  else if (n =? 116)%nat then Some (ascii_of_nat 9)
  else None.

(** The text of a string after its opening quote, and what follows the
    closing one. *)
Fixpoint scan_string (s : string) : option (string * string) :=
  match s with
  | EmptyString => None
  | String c r =>
      if Ascii.eqb c PyStr.dquote then Some (EmptyString, r)
      else if Ascii.eqb c PyStr.backslash then
        match r with
        | String "u" (String h1 (String h2 (String h3 (String h4 r')))) =>
            match hex_value h1, hex_value h2, hex_value h3, hex_value h4 with
            | Some 0%nat, Some 0%nat, Some a, Some b =>
                match scan_string r' with
                | Some (t, rest) => Some (String (ascii_of_nat (16 * a + b)) t, rest)
                | None => None
                end
            | _, _, _, _ => None
            end
        | String e r' =>
            match unescape e, scan_string r' with
            | Some ch, Some (t, rest) => Some (String ch t, rest)
            | _, _ => None
            end
        | EmptyString => None
        end
      else if (nat_of_ascii c <? 32)%nat then None
      else match scan_string r with
           | Some (t, rest) => Some (String c t, rest)
           | None => None
           end
  end.

(** The longest run of decimal digits at the head of [s]. *)
Fixpoint span_digits (s : string) : string * string :=
  match s with
  | String c r =>
      match PyStr.digit_value c with
      | Some _ => let '(ds, rest) := span_digits r in (String c ds, rest)
      | None => (EmptyString, s)
      end
  | EmptyString => (EmptyString, s)
  end.

Definition digits_to_Z (ds : string) : Z :=
  match PyStr.digits_value 0 ds with
  | Some n => n
  | None => 0
  end.

(** The integer part of a number: [0] or a digit from 1 to 9 followed by
    digits. *)
Definition scan_int_part (s : string) : option (string * string) :=
  match s with
  | String "0" r => Some ("0", r)
  | _ => match span_digits s with
         | (EmptyString, _) => None
         | (ds, rest) => Some (ds, rest)
         end
  end.

Definition scan_frac (s : string) : option (string * string) :=
  match s with
  | String "." r =>
      match span_digits r with
      | (EmptyString, _) => None
      | (ds, rest) => Some (ds, rest)
      end
  | _ => None
  end.

Definition scan_exp (s : string) : option (Z * string) :=
  match s with
  | String c r =>
      if Ascii.eqb c "e" || Ascii.eqb c "E" then
        let '(neg, r1) :=
          match r with
          | String "-" r' => (true, r')
          | String "+" r' => (false, r')
          | _ => (false, r)
          end in
        match span_digits r1 with
        | (EmptyString, _) => None
        | (ds, rest) => Some (if neg then - digits_to_Z ds else digits_to_Z ds, rest)
        end
      else None
  | EmptyString => None
  end.

(** A number: an [int] when it has neither fraction nor exponent, the
    nearest [float] otherwise. *)
Definition scan_number (s : string) : option (pyval * string) :=
  let '(neg, s1) :=
    match s with
    | String "-" r => (true, r)
    | _ => (false, s)
    end in
  match scan_int_part s1 with
  | None => None
  | Some (ip, r1) =>
      let '(fp, r2) :=
        match scan_frac r1 with
        | Some (ds, rest) => (Some ds, rest)
        | None => (None, r1)
        end in
      let '(ep, r3) :=
        match scan_exp r2 with
        | Some (e, rest) => (Some e, rest)
        | None => (None, r2)
        end in
      match fp, ep with
      | None, None =>
          Some (PInt (if neg then - digits_to_Z ip else digits_to_Z ip), r3)
      | _, _ =>
          let fd := match fp with Some ds => ds | None => EmptyString end in
          let e := match ep with Some e => e | None => 0 end in
          Some (PFloat (float_of_decimal
                          (mk_decimal neg (Z.to_N (digits_to_Z (ip ++ fd)))
                             (e - Z.of_nat (String.length fd)))), r3)
      end
  end.

(** [s] without the keyword [kw] at its head. *)
Definition strip_prefix (kw s : string) : option string :=
  if PyStr.starts_with kw s then Some (PyStr.drop (String.length kw) s)
  else None.

Fixpoint scan_value (fuel : nat) (s : string) {struct fuel}
  : option (pyval * string) :=
  match fuel with
  | O => None
  | S f =>
      match s with
      | EmptyString => None
      | String c r =>
          if Ascii.eqb c PyStr.dquote then
            match scan_string r with
            | Some (t, rest) => Some (PStr t, rest)
            | None => None
            end
          else if Ascii.eqb c "{" then
            match skip_ws r with
            | String "}" rest => Some (PDict [], rest)
            | r' => scan_members f [] r'
            end
          else if Ascii.eqb c "[" then
            match skip_ws r with
            | String "]" rest => Some (PList [], rest)
            | r' => scan_elements f [] r'
            end
          else
            match strip_prefix "null" s, strip_prefix "true" s,
                  strip_prefix "false" s, strip_prefix "NaN" s,
                  strip_prefix "Infinity" s, strip_prefix "-Infinity" s with
            | Some rest, _, _, _, _, _ => Some (PNone, rest)
            | _, Some rest, _, _, _, _ => Some (PBool true, rest)
            | _, _, Some rest, _, _, _ => Some (PBool false, rest)
            | _, _, _, Some rest, _, _ => Some (PFloat S754_nan, rest)
            | _, _, _, _, Some rest, _ => Some (PFloat (S754_infinity false), rest)
            | _, _, _, _, _, Some rest => Some (PFloat (S754_infinity true), rest)
            | _, _, _, _, _, _ => scan_number s
            end
      end
  end

with scan_elements (fuel : nat) (acc : list pyval) (s : string) {struct fuel}
  : option (pyval * string) :=
  match fuel with
  | O => None
  | S f =>
      match scan_value f s with
      | None => None
      | Some (v, r) =>
          match skip_ws r with
          | String "," r' => scan_elements f (acc ++ [v]) (skip_ws r')
          | String "]" r' => Some (PList (acc ++ [v]), r')
          | _ => None
          end
      end
  end

with scan_members (fuel : nat) (acc : pydict) (s : string) {struct fuel}
  : option (pyval * string) :=
  match fuel with
  | O => None
  | S f =>
      match s with
      | String c r =>
          if Ascii.eqb c PyStr.dquote then
            match scan_string r with
            | None => None
            | Some (k, r1) =>
                match skip_ws r1 with
                | String ":" r2 =>
                    match scan_value f (skip_ws r2) with
                    | None => None
                    | Some (v, r3) =>
                        match skip_ws r3 with
                        | String "," r4 => scan_members f (dict_set acc k v) (skip_ws r4)
                        | String "}" r4 => Some (PDict (dict_set acc k v), r4)
                        | _ => None
                        end
                    end
                | _ => None
                end
            end
          else None
      | EmptyString => None
      end
  end.

(** [json.loads] on a [str]: one value between optional white space. *)
Definition decode (s : string) : res pyval :=
  match scan_value (2 * String.length s + 2) (skip_ws s) with
  | Some (v, rest) =>
      match skip_ws rest with
      | EmptyString => Ok v
      | _ => Raise JSONDecodeError
      end
  | None => Raise JSONDecodeError
  end.

(** [repr] of a float is printed for the special values only; the
    examples serialise no finite float. *)
Definition float_repr (f : float) : string :=
  match f with
  | S754_nan => "nan"
  | S754_infinity false => "inf"
  | S754_infinity true => "-inf"
  | S754_zero false => "0.0"
  | S754_zero true => "-0.0"
  | S754_finite _ _ _ => "<float>"
  end.

(** [repr] of a value that is not a [str], for the examples: its class. *)
Definition py_repr (v : pyval) : string := "<" ++ type_name v ++ ">".

End Sample.

(* ================================================================== *)
(** ** The handlers *)
(* ================================================================== *)

(** [os.environ.get(k, default)] and [os.getenv(k, default)]. *)
Definition getenv (w : world) (k default : string) : string :=
  match environ w k with
  | Some v => v
  | None => default
  end.

Definition snowflake_domain : string := ".snowflakecomputing.com".

(** Lines 48-50 and 305-307: the connection account.
    [if account and '.snowflakecomputing.com' in account:
         account = account.split('.snowflakecomputing.com')[0]] *)
Definition clean_account (account : option string) : option string :=
  match account with
  | Some a =>
      if negb (String.eqb a EmptyString) && PyStr.contains snowflake_domain a
      then Some (PyStr.split_head snowflake_domain a)
      else Some a
  | None => None
  end.

(** Lines 101-103: the account of the chat handler.
    [if '.snowflakecomputing.com' in account:
         account = account.replace('.snowflakecomputing.com', '')] *)
Definition chat_account (account : string) : string :=
  if PyStr.contains snowflake_domain account
  then PyStr.replace snowflake_domain EmptyString account
  else account.

(** Line 106: [account_url = account.replace('_', '-')] *)
Definition account_url (account : string) : string :=
  PyStr.replace "_" "-" account.

(** [snowflake.connector.connect(...)]: one network call; a connection is
    open when it returns. *)
Definition connector_connect (w : world) (a : connect_args) : M unit :=
  fun st =>
    let st1 := mk_state (calls st ++ [CallConnect a]) (open_connections st) (open_cursors st) in
    match sf_connect w a with
    | Ok _ => (Ok tt, mk_state (calls st1) (S (open_connections st1)) (open_cursors st1))
    | Raise e => (Raise e, st1)
    end.

(** [conn.cursor()] *)
Definition conn_cursor (w : world) : M unit :=
  fun st =>
    match sf_cursor w with
    | Ok _ => (Ok tt, mk_state (calls st) (open_connections st) (S (open_cursors st)))
    | Raise e => (Raise e, st)
    end.

(** [cursor.execute(sql)] *)
Definition cursor_execute (w : world) (sql : pyval) : M unit :=
  (log_call (CallExecute sql) ;;; lift (sf_execute w sql))%py.

(** [cursor.fetchall()] *)
Definition cursor_fetchall (w : world) (sql : pyval) : M (list (list pyval)) :=
  (log_call CallFetch ;;; lift (sf_fetchall w sql))%py.

(** [cursor.fetchone()] *)
Definition cursor_fetchone (w : world) (sql : pyval) : M pyval :=
  (log_call CallFetch ;;; lift (sf_fetchone w sql))%py.

(** [cursor.close()] *)
Definition cursor_close : M unit :=
  fun st => (Ok tt, mk_state (calls st) (open_connections st) (Nat.pred (open_cursors st))).

(** [conn.close()] *)
Definition conn_close : M unit :=
  fun st => (Ok tt, mk_state (calls st) (Nat.pred (open_connections st)) (open_cursors st)).

(** [requests.post(url, headers=..., json=..., timeout=...)] *)
Definition post (w : world) (r : http_request) : M http_response :=
  (log_call (CallPost r) ;;; lift (requests_post w r))%py.

(** [get_snowflake_connection()] *)
Definition get_snowflake_connection (w : world) : M unit :=
  let account := environ w "SNOWFLAKE_ACCOUNT" in
  let user := environ w "SNOWFLAKE_USER" in
  let token := environ w "SNOWFLAKE_TOKEN" in
  let warehouse := getenv w "SNOWFLAKE_WAREHOUSE" "COMPUTE_WH" in
  let database := environ w "SNOWFLAKE_DATABASE" in
  let schema := getenv w "SNOWFLAKE_SCHEMA" "PUBLIC" in
  let account := clean_account account in
  connector_connect w
    (mk_connect_args user token account warehouse database schema 10 10).

(** Lines 248-255: the cell written under its column.
    [isinstance(value, (date, datetime))] gives [value.isoformat()],
    [isinstance(value, Decimal)] gives [float(value)], anything else stays
    as it is. *)
Definition normalize_value (value : pyval) : pyval :=
  match value with
  | PDate d => PStr (date_isoformat d)
  | PDatetime t => PStr (datetime_isoformat t)
  | PDecimal d => PFloat (float_of_decimal d)
  | PNone => PNone
  | _ => value
  end.

(** Lines 245-255: [row_dict], filled over [zip(columns, row)]. *)
Fixpoint fill_row (row_dict : pydict) (pairs : list (string * pyval)) : pydict :=
  match pairs with
  | [] => row_dict
  | (col, value) :: rest => fill_row (dict_set row_dict col (normalize_value value)) rest
  end.

Definition normalize_row (columns : list string) (row : list pyval) : pydict :=
  fill_row [] (combine columns row).

(** Lines 243-256: [results]. *)
Definition normalize_rows (columns : list string) (rows : list (list pyval))
  : list pydict :=
  map (normalize_row columns) rows.

(** [result[i]] for the row [fetchone] returned. *)
Definition py_index (v : pyval) (i : nat) : res pyval :=
  match v with
  | PList l =>
      match nth_error l i with
      | Some x => Ok x
      | None => Raise (IndexError "tuple index out of range")
      end
  | _ => Raise (TypeError ("'" ++ type_name v ++ "' object is not subscriptable"))
  end.

(** The request a page of the local server received: [request.data] as
    text, [request.args], [request.headers], [request.remote_addr]. *)
Record flask_request := mk_flask_request {
  fr_data : string;
  fr_args : list (string * string);
  fr_headers : list (string * string);
  fr_remote_addr : string
}.

Definition str_dict (d : list (string * string)) : pyval :=
  PDict (fold_left (fun acc kv => dict_set acc (fst kv) (PStr (snd kv))) d []).

(** [create_api_gateway_event(path, method)] of [local_server.py]. *)
Definition create_api_gateway_event (request : flask_request) (path method : string)
  : pydict :=
  [ ("body", if String.eqb (fr_data request) EmptyString then PNone
             else PStr (fr_data request));
    ("resource", PStr path);
    ("path", PStr path);
    ("httpMethod", PStr method);
    ("isBase64Encoded", PBool false);
    ("queryStringParameters",
       match fr_args request with
       | [] => PNone
       | _ => str_dict (fr_args request)
       end);
    ("pathParameters", PNone);
    ("stageVariables", PNone);
    ("headers", str_dict (fr_headers request));
    ("requestContext",
       PDict [ ("accountId", PStr "123456789012");
               ("resourceId", PStr "123456");
               ("stage", PStr "local");
               ("requestId", PStr "local-request");
               ("identity", PDict [("sourceIp", PStr (fr_remote_addr request))]);
               ("resourcePath", PStr path);
               ("httpMethod", PStr method);
               ("apiId", PStr "local") ]) ].

(* ================================================================== *)
(** ** Strings in JSON text *)
(* ================================================================== *)

(** [json.dumps] writes a string with [ensure_ascii]: between double
    quotes, the quote, the backslash and the control characters escaped,
    everything outside the printable ASCII range as [\u00xx]. *)

Definition hex_digit (n : nat) : ascii :=
  match n with
  | 0 => "0" | 1 => "1" | 2 => "2" | 3 => "3" | 4 => "4" | 5 => "5" | 6 => "6"
  | 7 => "7" | 8 => "8" | 9 => "9" | 10 => "a" | 11 => "b" | 12 => "c"
  | 13 => "d" | 14 => "e" | _ => "f"
  end%nat%char.

(** One character of a string; a character is a code point below 256. *)
Definition encode_char (c : ascii) : string :=
  let n := nat_of_ascii c in
  let esc (x : ascii) := String PyStr.backslash (PyStr.str1 x) in
  if (n =? 34)%nat then esc PyStr.dquote
  else if (n =? 92)%nat then esc PyStr.backslash
  else if (n =? 10)%nat then esc "n"%char
  else if (n =? 13)%nat then esc "r"%char
  else if (n =? 9)%nat then esc "t"%char
  else if (n =? 8)%nat then esc "b"%char
  else if (n =? 12)%nat then esc "f"%char
  else if (n <? 32)%nat || (126 <? n)%nat then
    String PyStr.backslash
      (String "u" (String "0" (String "0"
         (String (hex_digit (n / 16)) (PyStr.str1 (hex_digit (n mod 16)))))))
  else PyStr.str1 c.

Fixpoint encode_chars (s : string) : string :=
  match s with
  | EmptyString => EmptyString
  | String c r => encode_char c ++ encode_chars r
  end.

Definition encode_str (s : string) : string :=
  PyStr.quoted (encode_chars s).

(* ================================================================== *)
(** ** Vocabulary of the properties *)
(* ================================================================== *)

(** The JSON text [{"error": "<msg>"}]. *)
Definition error_text (msg : string) : string :=
  "{" ++ PyStr.quoted "error" ++ ": " ++ PyStr.quoted msg ++ "}".

(** The JSON text [{"error": "<msg>", "type": "<cls>"}]. *)
Definition typed_error_text (msg cls : string) : string :=
  "{" ++ PyStr.quoted "error" ++ ": " ++ PyStr.quoted msg ++ ", " ++
  PyStr.quoted "type" ++ ": " ++ PyStr.quoted cls ++ "}".

(** The field [k] of a request body is missing or empty (false in a
    condition: the empty string, the empty list, [None], ...). *)
Definition empty_or_missing (d : pydict) (k : string) : Prop :=
  match dict_get d k with
  | None => True
  | Some v => truthy v = false
  end.

(** [d.get(k, default)] on a dict. *)
Definition dict_get_default (d : pydict) (k : string) (default : pyval) : pyval :=
  match dict_get d k with
  | Some v => v
  | None => default
  end.

(** The cells whose declared type is null, text, integer, floating-point,
    fixed-point, date, timestamp or boolean. *)
Definition json_cell (v : pyval) : bool :=
  match v with
  | PNone | PBool _ | PInt _ | PFloat _ | PStr _
  | PDate _ | PDatetime _ | PDecimal _ => true
  | PList _ | PDict _ | PObject _ => false
  end.

(** A statement made of white space only. *)
Definition is_space (c : ascii) : bool :=
  let n := nat_of_ascii c in
  (n =? 32)%nat || ((9 <=? n)%nat && (n <=? 13)%nat).

Fixpoint whitespace_only (s : string) : bool :=
  match s with
  | EmptyString => true
  | String c r => is_space c && whitespace_only r
  end.

(** The state after one more call. *)
Definition with_call (st : state) (c : net_call) : state :=
  mk_state (calls st ++ [c]) (open_connections st) (open_cursors st).

(** The JSON text [{"error": "Cortex Analyst API error: <code>",
    "details": <details>}], [details] being JSON text already. *)
Definition upstream_error_text (code : Z) (details : string) : string :=
  "{" ++
  ((PyStr.quoted "error" ++ ": " ++
    PyStr.quoted ("Cortex Analyst API error: " ++ PyStr.of_Z code)) ++ ", " ++
   (PyStr.quoted "details" ++ ": " ++ details)) ++ "}".

(** The JSON text [{"message": "forbidden"}]. *)
Definition forbidden_text : string :=
  "{" ++ PyStr.quoted "message" ++ ": " ++ PyStr.quoted "forbidden" ++ "}".


(** The arguments [get_snowflake_connection] connects with. *)
Definition connection_args (w : world) : connect_args :=
  mk_connect_args (environ w "SNOWFLAKE_USER") (environ w "SNOWFLAKE_TOKEN")
    (clean_account (environ w "SNOWFLAKE_ACCOUNT"))
    (getenv w "SNOWFLAKE_WAREHOUSE" "COMPUTE_WH")
    (environ w "SNOWFLAKE_DATABASE")
    (getenv w "SNOWFLAKE_SCHEMA" "PUBLIC") 10 10.


(* ================================================================== *)
(** ** Scenarios *)
(* ================================================================== *)

(** Worlds and events the properties are run on. *)
Module Scenario.

Definition env_of (vars : list (string * string)) : string -> option string :=
  fun k => dict_get vars k.

Definition credentials : list (string * string) :=
  [("SNOWFLAKE_ACCOUNT", "ABC_123.snowflakecomputing.com");
   ("SNOWFLAKE_USER", "ANALYST");
   ("SNOWFLAKE_TOKEN", "pat-token")].

Definition unreachable : exn := mk_exn "ConnectionError" "Connection refused" true.

Definition no_table : exn :=
  mk_exn "ProgrammingError" "Object 'MISSING' does not exist or not authorized." false.

(** A world from its environment, the answer of the chat endpoint, the
    outcome of a statement, and the columns and rows it yields. *)
Definition make (vars : list (string * string)) (answer : res http_response)
  (outcome : res unit) (columns : list string) (rows : list (list pyval)) : world :=
  mk_world (env_of vars) (fun _ => answer)
    (fun _ => Ok tt) (Ok tt) (fun _ => outcome) (fun _ => columns)
    (fun _ => Ok rows)
    (fun _ => Ok match rows with r :: _ => PList r | [] => PNone end).

(** No credentials, nothing reachable. *)
Definition bare : world := make [] (Raise unreachable) (Ok tt) [] [].

(** The chat endpoint answers 403 with [{"message":"forbidden"}]. *)
Definition forbidden : world :=
  make credentials
    (Ok (mk_http_response 403
           ("{" ++ PyStr.quoted "message" ++ ":" ++ PyStr.quoted "forbidden" ++ "}")))
    (Ok tt) [] [].

(** The statement fails on the server. *)
Definition failing_statement : world :=
  make credentials (Raise unreachable) (Raise no_table) [] [].

(** The statement yields one row with a [TIME] column, which the
    connector hands over as a [datetime.time]. *)
Definition time_column : world :=
  make credentials (Raise unreachable) (Ok tt) ["T"] [[PObject "time"]].

(** The statement yields the row [(1, Decimal("12.50"), date(2024, 3, 7))]. *)
Definition one_row : world :=
  make credentials (Raise unreachable) (Ok tt) ["V"; "PRICE"; "DAY"]
    [[PInt 1; PDecimal (mk_decimal false 1250 (-2)); PDate (mk_date 2024 3 7)]].

(** The event whose body is the text [s]. *)
Definition event_with (s : string) : pydict :=
  [("body", PStr s); ("httpMethod", PStr "POST")].

(** [{"sql": "<statement>"}] *)
Definition sql_body (statement : string) : string :=
  "{" ++ PyStr.quoted "sql" ++ ": " ++ PyStr.quoted statement ++ "}".

(** [{"messages": [{"role": "user"}]}] *)
Definition chat_body : string :=
  "{" ++ PyStr.quoted "messages" ++ ": [{" ++ PyStr.quoted "role" ++ ": " ++
  PyStr.quoted "user" ++ "}]}".

(** [{"messages": []}] *)
Definition no_messages_body : string :=
  "{" ++ PyStr.quoted "messages" ++ ": []}".

Definition the_connection : connect_args :=
  mk_connect_args (Some "ANALYST") (Some "pat-token") (Some "ABC_123")
    "COMPUTE_WH" None "PUBLIC" 10 10.

End Scenario.

(* ================================================================== *)
(** ** Vocabulary of the further properties *)
(* ================================================================== *)

(** The JSON text [{"error": <message>, "type": <class>}] of an exception,
    as [json.dumps] writes it. *)
Definition exception_text (e : exn) : string :=
  "{" ++
  ((PyStr.quoted "error" ++ ": " ++ encode_str (exn_message e)) ++ ", " ++
   (PyStr.quoted "type" ++ ": " ++ encode_str (exn_class e))) ++ "}".

(** The JSON text [{"error": "REST API request failed: <message>",
    "type": "RequestException"}]. *)
Definition transport_error_text (e : exn) : string :=
  "{" ++
  ((PyStr.quoted "error" ++ ": " ++
    encode_str ("REST API request failed: " ++ exn_message e)) ++ ", " ++
   (PyStr.quoted "type" ++ ": " ++ PyStr.quoted "RequestException")) ++ "}".

Definition is_ok {A : Type} (r : res A) : bool :=
  match r with
  | Ok _ => true
  | Raise _ => false
  end.



(** The body of the SQL handler's answer, before [json.dumps]. *)
Definition sql_payload (columns : list string) (rows : list (list pyval)) : pyval :=
  PDict [("columns", PList (map PStr columns));
         ("data", PList (map PDict (normalize_rows columns rows)));
         ("row_count", PInt (Z.of_nat (List.length rows)))].

(** The body of the connection test's answer, before [json.dumps]. *)
Definition connection_payload (r0 r1 r2 r3 : pyval) : pyval :=
  PDict [("message", PStr "Successfully connected to Snowflake!");
         ("snowflake_version", r0);
         ("warehouse", r1);
         ("database", r2);
         ("schema", r3)].

(** Further worlds and events. *)
Module Scenario2.

(** The chat endpoint answers 200 with [{"request_id": "r-1"}]. *)
Definition answering : world :=
  Scenario.make Scenario.credentials
    (Ok (mk_http_response 200
           ("{" ++ PyStr.quoted "request_id" ++ ": " ++ PyStr.quoted "r-1" ++ "}")))
    (Ok tt) [] [].

(** The test query is answered by one row. *)
Definition connected : world :=
  Scenario.make Scenario.credentials (Raise Scenario.unreachable) (Ok tt)
    ["VERSION"; "WAREHOUSE"; "DATABASE"; "SCHEMA"]
    [[PStr "9.1.0"; PStr "COMPUTE_WH"; PNone; PStr "PUBLIC"]].

(** The text [[1, 2]]: JSON, but no object. *)
Definition list_body : string := "[1, 2]".

(** A text that is no JSON. *)
Definition broken_body : string := "{sql".

End Scenario2.

Section Handlers.

Set Default Proof Using "Type".

(** [repr] of a finite float, [repr] of a value that is not a string and
    the decoder behind [json.loads] and [Response.json]. *)
Variable float_repr : float -> string.
Variable py_repr : pyval -> string.
Variable json_decode : string -> res pyval.

(** ** [json.dumps] with its defaults: [ensure_ascii], [allow_nan], the
    separators [", "] and [": "]. *)

Definition encode_float (f : float) : string :=
  match f with
  | S754_nan => "NaN"
  | S754_infinity false => "Infinity"
  | S754_infinity true => "-Infinity"
  | _ => float_repr f
  end.

Definition not_serializable (v : pyval) : exn :=
  TypeError ("Object of type " ++ type_name v ++ " is not JSON serializable").

Fixpoint json_dumps (v : pyval) : res string :=
  match v with
  | PNone => Ok "null"
  | PBool true => Ok "true"
  | PBool false => Ok "false"
  | PInt n => Ok (PyStr.of_Z n)
  | PFloat f => Ok (encode_float f)
  | PStr s => Ok (encode_str s)
  | PList l =>
      res_bind (res_map json_dumps l) (fun parts =>
      Ok ("[" ++ PyStr.join ", " parts ++ "]"))
  | PDict d =>
      res_bind
        (res_map (fun kv : string * pyval =>
                    let (k, x) := kv in
                    res_bind (json_dumps x) (fun sx =>
                    Ok (encode_str k ++ ": " ++ sx))) d)
        (fun parts => Ok ("{" ++ PyStr.join ", " parts ++ "}"))
  | PDate _ | PDatetime _ | PDecimal _ | PObject _ => Raise (not_serializable v)
  end.

(** [json.loads(s)]: the decoder on a [str]; a [TypeError] on an object
    that is neither [str] nor bytes.  The gateway and the local server put
    a [str] or [None] under [body], never bytes. *)
Definition json_loads (s : pyval) : res pyval :=
  match s with
  | PStr t => json_decode t
  | _ => Raise (TypeError ("the JSON object must be str, bytes or bytearray, not "
                             ++ type_name s))
  end.

(** [response.json()]: the decoder on the text of the response; its
    failure is a [requests.exceptions.JSONDecodeError]. *)
Definition response_json (r : http_response) : res pyval :=
  match json_decode (text r) with
  | Ok v => Ok v
  | Raise e => Raise (mk_exn "JSONDecodeError" (exn_message e) true)
  end.

(** [f"{v}"] *)
Definition py_str (v : pyval) : string :=
  match v with
  | PStr s => s
  | _ => py_repr v
  end.

(** [{"statusCode": code, "headers": {...}, "body": json.dumps(payload)}] *)
Definition respond (code : Z) (payload : pyval) : M envelope :=
  (b <- lift (json_dumps payload) ;;
   ret (mk_envelope code json_headers b))%py.

(** [event.get('body', '{}')] *)
Definition event_body (event : pydict) : pyval :=
  match dict_get event "body" with
  | Some b => b
  | None => PStr "{}"
  end.

(** The last clause of every handler:
    [except Exception as e: ... 500, {"error": str(e), "type": type(e).__name__}] *)
Definition on_exception (e : exn) : M envelope :=
  respond 500 (PDict [("error", PStr (exn_message e));
                      ("type", PStr (exn_class e))]).


Definition default_semantic_model : string :=
  "DAMPIERMIKE.REVENUE_TIMESERIES.RAW_DATA/revenue_timeseries.yaml".

(** Lines 120-150: the call to the Cortex Analyst endpoint. *)
Definition chat_request (account_url token warehouse database schema : string)
  (messages semantic_model : pyval) : http_request :=
  let base_url := "https://" ++ account_url ++ ".snowflakecomputing.com" in
  let api_endpoint := "/api/v2/cortex/analyst/message" in
  let url := base_url ++ api_endpoint in
  let request_body :=
    PDict [("messages", messages);
           ("semantic_model_file", PStr ("@" ++ py_str semantic_model))] in
  let hdrs :=
    [("Content-Type", "application/json");
     ("Accept", "application/json");
     ("Authorization", "Bearer " ++ token);
     ("X-Snowflake-Authorization-Token-Type", "PROGRAMMATIC_ACCESS_TOKEN");
     ("X-Snowflake-Warehouse", warehouse);
     ("X-Snowflake-Database", database);
     ("X-Snowflake-Schema", schema)] in
  mk_http_request url hdrs request_body 120.

(** Lines 165-168: the parsed error body, or the raw text wrapped. *)
Definition error_data (response : http_response) : pyval :=
  match response_json response with
  | Ok v => v
  | Raise _ => PDict [("message", PStr (text response))]
  end.

(** [cortex_analyst_chat_handler(event, context)] *)
Definition cortex_analyst_chat_handler (w : world) (event : pydict) : M envelope :=
  try_except
    (body <- lift (json_loads (event_body event)) ;;
     messages <- lift (py_get body "messages" (PList [])) ;;
     semantic_model <- lift (py_get body "semantic_model" (PStr default_semantic_model)) ;;
     if negb (truthy messages) then
       respond 400 (PDict [("error", PStr "No messages provided")])
     else
       let account := getenv w "SNOWFLAKE_ACCOUNT" EmptyString in
       let token := getenv w "SNOWFLAKE_TOKEN" EmptyString in
       let warehouse := getenv w "SNOWFLAKE_WAREHOUSE" "MYWAREHOUSE" in
       let database := getenv w "SNOWFLAKE_DATABASE" "DAMPIERMIKE" in
       let schema := getenv w "SNOWFLAKE_SCHEMA" "PUBLIC" in
       let account := chat_account account in
       let account_url := account_url account in
       if String.eqb account EmptyString || String.eqb token EmptyString then
         respond 500 (PDict [("error", PStr "Missing Snowflake credentials")])
       else
         response <- post w (chat_request account_url token warehouse database
                               schema messages semantic_model) ;;
         if status_code response =? 200 then
           response_data <- lift (response_json response) ;;
           respond 200 response_data
         else
           respond (status_code response)
             (PDict [("error", PStr ("Cortex Analyst API error: "
                                       ++ PyStr.of_Z (status_code response)));
                     ("details", error_data response)]))%py
    (fun _ => true)
    (fun e =>
       if exn_is_request e then
         respond 500 (PDict [("error", PStr ("REST API request failed: " ++ exn_message e));
                             ("type", PStr "RequestException")])
       else on_exception e).

(** [execute_sql_handler(event, context)] *)
Definition execute_sql_handler (w : world) (event : pydict) : M envelope :=
  try_except
    (body <- lift (json_loads (event_body event)) ;;
     sql <- lift (py_get body "sql" (PStr EmptyString)) ;;
     if negb (truthy sql) then
       respond 400 (PDict [("error", PStr "No SQL query provided")])
     else
       get_snowflake_connection w ;;;
       conn_cursor w ;;;
       cursor_execute w sql ;;;
       let columns := sf_description w sql in
       rows <- cursor_fetchall w sql ;;
       let results := normalize_rows columns rows in
       cursor_close ;;;
       conn_close ;;;
       respond 200
         (PDict [("columns", PList (map PStr columns));
                 ("data", PList (map PDict results));
                 ("row_count", PInt (Z.of_nat (List.length results)))]))%py
    (fun _ => true)
    on_exception.

Definition test_query : string :=
  "SELECT CURRENT_VERSION(), CURRENT_WAREHOUSE(), CURRENT_DATABASE(), CURRENT_SCHEMA()".

Definition is_import_error (e : exn) : bool :=
  String.eqb (exn_class e) "ImportError" ||
  String.eqb (exn_class e) "ModuleNotFoundError".

Definition nonempty (o : option string) : bool :=
  match o with
  | Some s => negb (String.eqb s EmptyString)
  | None => false
  end.

(** [test_snowflake_handler(event, context)] *)
Definition test_snowflake_handler (w : world) (event : pydict) : M envelope :=
  try_except
    (let account := environ w "SNOWFLAKE_ACCOUNT" in
     let user := environ w "SNOWFLAKE_USER" in
     let token := environ w "SNOWFLAKE_TOKEN" in
     let warehouse := getenv w "SNOWFLAKE_WAREHOUSE" "COMPUTE_WH" in
     let database := environ w "SNOWFLAKE_DATABASE" in
     let schema := getenv w "SNOWFLAKE_SCHEMA" "PUBLIC" in
     let account := clean_account account in
     if negb (nonempty account && nonempty user && nonempty token) then
       respond 400
         (PDict [("error", PStr "Missing Snowflake credentials");
                 ("message", PStr "Please set SNOWFLAKE_ACCOUNT, SNOWFLAKE_USER, and SNOWFLAKE_TOKEN environment variables")])
     else
       connector_connect w
         (mk_connect_args user token account warehouse database schema 10 10) ;;;
       conn_cursor w ;;;
       cursor_execute w (PStr test_query) ;;;
       result <- cursor_fetchone w (PStr test_query) ;;
       cursor_close ;;;
       conn_close ;;;
       r0 <- lift (py_index result 0) ;;
       r1 <- lift (py_index result 1) ;;
       r2 <- lift (py_index result 2) ;;
       r3 <- lift (py_index result 3) ;;
       respond 200
         (PDict [("message", PStr "Successfully connected to Snowflake!");
                 ("snowflake_version", r0);
                 ("warehouse", r1);
                 ("database", r2);
                 ("schema", r3)]))%py
    (fun _ => true)
    (fun e =>
       if is_import_error e then
         respond 500 (PDict [("error", PStr "Snowflake connector not installed");
                             ("message", PStr "Run: pip install snowflake-connector-python")])
       else on_exception e).

(** Running a handler on a fresh invocation. *)
Definition run (h : M envelope) : res envelope * state := h initial_state.

(** The request the chat handler sends for the request body [d]. *)
Definition sent_request (w : world) (d : pydict) : http_request :=
  chat_request
    (account_url (chat_account (getenv w "SNOWFLAKE_ACCOUNT" EmptyString)))
    (getenv w "SNOWFLAKE_TOKEN" EmptyString)
    (getenv w "SNOWFLAKE_WAREHOUSE" "MYWAREHOUSE")
    (getenv w "SNOWFLAKE_DATABASE" "DAMPIERMIKE")
    (getenv w "SNOWFLAKE_SCHEMA" "PUBLIC")
    (dict_get_default d "messages" (PList []))
    (dict_get_default d "semantic_model" (PStr default_semantic_model)).

(** The chat handler, given the request body [d], reached the remote
    endpoint, which answered [response]: the body parsed, it has
    messages, the account and the token are set and [requests.post]
    returned. *)
Definition reached (w : world) (event d : pydict) (response : http_response)
  : Prop :=
  json_loads (event_body event) = Ok (PDict d) /\
  truthy (dict_get_default d "messages" (PList [])) = true /\
  chat_account (getenv w "SNOWFLAKE_ACCOUNT" EmptyString) <> EmptyString /\
  getenv w "SNOWFLAKE_TOKEN" EmptyString <> EmptyString /\
  requests_post w (sent_request w d) = Ok response.


(** Lines 233-272 of [execute_sql_handler]: the statement run on a fresh
    connection and the rows answered. *)
Definition run_statement (w : world) (sql : pyval) : M envelope :=
  (get_snowflake_connection w ;;;
   conn_cursor w ;;;
   cursor_execute w sql ;;;
   let columns := sf_description w sql in
   rows <- cursor_fetchall w sql ;;
   let results := normalize_rows columns rows in
   cursor_close ;;;
   conn_close ;;;
   respond 200
     (PDict [("columns", PList (map PStr columns));
             ("data", PList (map PDict results));
             ("row_count", PInt (Z.of_nat (List.length results)))]))%py.

(** The chat handler sends a request for the body [d]: the body parsed, it
    has messages, the account and the token are set. *)
Definition sends (w : world) (event d : pydict) : Prop :=
  json_loads (event_body event) = Ok (PDict d) /\
  truthy (dict_get_default d "messages" (PList [])) = true /\
  chat_account (getenv w "SNOWFLAKE_ACCOUNT" EmptyString) <> EmptyString /\
  getenv w "SNOWFLAKE_TOKEN" EmptyString <> EmptyString.



(** The [except] clauses of the chat handler: a [RequestException] is
    reported as a failed REST request, anything else by its own message and
    class. *)
Definition chat_except (e : exn) : M envelope :=
  if exn_is_request e then
    respond 500 (PDict [("error", PStr ("REST API request failed: " ++ exn_message e));
                        ("type", PStr "RequestException")])
  else on_exception e.

(** The text of the answer [chat_except] gives. *)
Definition chat_except_text (e : exn) : string :=
  if exn_is_request e then transport_error_text e else exception_text e.

(** The credential check of the connection test: account, user and token
    are set and not empty. *)
Definition credentials_set (w : world) : bool :=
  nonempty (clean_account (environ w "SNOWFLAKE_ACCOUNT"))
  && nonempty (environ w "SNOWFLAKE_USER")
  && nonempty (environ w "SNOWFLAKE_TOKEN").

(** The connection test returns with the connection open. *)
Definition test_connection_left_open (w : world) : bool :=
  credentials_set w && is_ok (sf_connect w (connection_args w)) &&
  negb (is_ok (sf_cursor w) && is_ok (sf_execute w (PStr test_query))
        && is_ok (sf_fetchone w (PStr test_query))).

(** The text of the answer the connection test gives to an exception. *)
Definition test_except_text (e : exn) : string :=
  if is_import_error e then
    "{" ++ PyStr.quoted "error" ++ ": " ++
    PyStr.quoted "Snowflake connector not installed" ++ ", " ++
    PyStr.quoted "message" ++ ": " ++
    PyStr.quoted "Run: pip install snowflake-connector-python" ++ "}"
  else exception_text e.

(** The address the chat handler posts to. *)
Definition chat_url (w : world) : string :=
  ("https://" ++
   account_url (chat_account (getenv w "SNOWFLAKE_ACCOUNT" EmptyString)) ++
   ".snowflakecomputing.com") ++ "/api/v2/cortex/analyst/message".

(** What an invocation of the chat handler may have done between [st] and
    [st']: no connection or cursor opened, no call or one POST to
    [chat_url] with a timeout of 120 seconds. *)
Definition chat_footprint (w : world) (st st' : state) : Prop :=
  open_connections st' = open_connections st /\
  open_cursors st' = open_cursors st /\
  (calls st' = calls st \/
   exists d,
     calls st' = (calls st ++ [CallPost (sent_request w d)])%list /\
     rq_timeout (sent_request w d) = 120 /\
     rq_url (sent_request w d) = chat_url w).

(** Lines 348-354 of [test_snowflake_handler]: the body of the answer, from
    the row [fetchone] returned. *)
Definition connection_answer (result : pyval) : res string :=
  res_bind (py_index result 0) (fun r0 =>
  res_bind (py_index result 1) (fun r1 =>
  res_bind (py_index result 2) (fun r2 =>
  res_bind (py_index result 3) (fun r3 =>
  json_dumps (connection_payload r0 r1 r2 r3))))).

(* ================================================================== *)
(** ** Strings: occurrences, [split] and [replace] *)
(* ================================================================== *)

Lemma append_assoc (a b c : string) : (a ++ b) ++ c = a ++ (b ++ c).
Proof. induction a as [|x a IH]; simpl; [reflexivity | now rewrite IH]. Qed.

Lemma append_empty_r (a : string) : a ++ EmptyString = a.
Proof. induction a as [|x a IH]; simpl; [reflexivity | now rewrite IH]. Qed.


Lemma starts_with_app (p s : string) : PyStr.starts_with p (p ++ s) = true.
Proof.
  induction p as [|c p IH]; simpl; [reflexivity|].
  now rewrite Ascii.eqb_refl, IH.
Qed.

Lemma starts_with_split (p s : string) :
  PyStr.starts_with p s = true -> exists rest, s = p ++ rest.
Proof.
  revert s. induction p as [|c p IH]; intros s H.
  - exists s. reflexivity.
  - destruct s as [|c' s]; simpl in H; [discriminate|].
    apply andb_true_iff in H. destruct H as [Hc Hp].
    apply Ascii.eqb_eq in Hc. subst c'.
    destruct (IH s Hp) as [rest ->]. exists rest. reflexivity.
Qed.

Lemma starts_with_trans (p a b : string) :
  PyStr.starts_with p a = true -> PyStr.starts_with a b = true ->
  PyStr.starts_with p b = true.
Proof.
  intros Hp Ha.
  destruct (starts_with_split _ _ Hp) as [r1 ->].
  destruct (starts_with_split _ _ Ha) as [r2 ->].
  rewrite append_assoc. apply starts_with_app.
Qed.

Lemma contains_app (sub a b : string) :
  PyStr.contains sub (a ++ sub ++ b) = true.
Proof.
  induction a as [|c a IH]; simpl.
  - destruct (sub ++ b) eqn:E; simpl; rewrite <- E, starts_with_app; reflexivity.
  - rewrite IH. apply orb_true_r.
Qed.

Lemma contains_split (sub s : string) :
  PyStr.contains sub s = true -> exists a b, s = a ++ sub ++ b.
Proof.
  induction s as [|c s IH]; simpl; intros H.
  - rewrite orb_false_r in H. destruct (starts_with_split _ _ H) as [rest E].
    exists EmptyString, rest. exact E.
  - apply orb_true_iff in H. destruct H as [H | H].
    + destruct (starts_with_split _ _ H) as [rest E].
      exists EmptyString, rest. exact E.
    + destruct (IH H) as (a & b & ->). exists (String c a), b. reflexivity.
Qed.

(** The head [split] keeps is a prefix of the string. *)
Lemma split_head_starts (sep s : string) :
  PyStr.starts_with (PyStr.split_head sep s) s = true.
Proof.
  induction s as [|c s IH]; simpl.
  - destruct (PyStr.starts_with sep EmptyString); reflexivity.
  - destruct (PyStr.starts_with sep (String c s)); simpl; [reflexivity|].
    now rewrite Ascii.eqb_refl, IH.
Qed.

(** When the separator occurs, [split] cuts the string right before an
    occurrence. *)
Lemma split_head_cut (sep s : string) :
  PyStr.contains sep s = true ->
  exists rest, s = PyStr.split_head sep s ++ sep ++ rest.
Proof.
  induction s as [|c s IH]; simpl; intros H.
  - rewrite orb_false_r in H. rewrite H.
    destruct (starts_with_split _ _ H) as [rest E]. exists rest. exact E.
  - destruct (PyStr.starts_with sep (String c s)) eqn:E.
    + destruct (starts_with_split _ _ E) as [rest E']. exists rest. exact E'.
    + simpl in H. destruct (IH H) as [rest E']. exists rest. simpl. now rewrite <- E'.
Qed.

(** The occurrence [split] cuts at is the first one: the head holds none. *)
Lemma split_head_first (sep s : string) :
  sep <> EmptyString ->
  PyStr.contains sep (PyStr.split_head sep s) = false.
Proof.
  intros Hsep.
  assert (Hnil : PyStr.starts_with sep EmptyString = false)
    by (destruct sep; [congruence | reflexivity]).
  induction s as [|c s IH]; simpl.
  - rewrite Hnil. simpl. now rewrite Hnil.
  - destruct (PyStr.starts_with sep (String c s)) eqn:E.
    + simpl. now rewrite Hnil.
    + cbn [PyStr.contains]. rewrite IH, orb_false_r.
      destruct (PyStr.starts_with sep (String c (PyStr.split_head sep s))) eqn:E2;
        [|reflexivity].
      rewrite <- E. symmetry.
      apply (starts_with_trans _ _ _ E2). simpl.
      now rewrite Ascii.eqb_refl, split_head_starts.
Qed.

Lemma replace_from_skip (old new : string) (s t : string) :
  PyStr.replace_from old new (String.length s) (s ++ t) =
  PyStr.replace_from old new O t.
Proof. induction s as [|c s IH]; simpl; [reflexivity | exact IH]. Qed.

(** [replace] steps over an occurrence at the head. *)
Lemma replace_at_occurrence (old new t : string) :
  old <> EmptyString ->
  PyStr.replace old new (old ++ t) = new ++ PyStr.replace old new t.
Proof.
  intros Hold. destruct old as [|c old]; [congruence|].
  unfold PyStr.replace.
  change (String c old ++ t) with (String c (old ++ t)).
  cbn [PyStr.replace_from].
  change (String c (old ++ t)) with (String c old ++ t).
  rewrite starts_with_app. cbn [String.length Nat.pred].
  now rewrite replace_from_skip.
Qed.

(** [replace] copies the text before the first occurrence. *)
Lemma replace_before_occurrence (old new s : string) :
  PyStr.replace old new s =
  PyStr.split_head old s ++
  PyStr.replace old new (PyStr.drop (String.length (PyStr.split_head old s)) s).
Proof.
  unfold PyStr.replace.
  induction s as [|c s IH]; simpl.
  - destruct (PyStr.starts_with old EmptyString); reflexivity.
  - destruct (PyStr.starts_with old (String c s)) eqn:E; simpl.
    + now rewrite E.
    + now rewrite IH at 1.
Qed.

Lemma drop_app (a b : string) : PyStr.drop (String.length a) (a ++ b) = b.
Proof. induction a as [|c a IH]; simpl; [now destruct b | exact IH]. Qed.

(** Replacing one character by another is a character-wise map. *)

Lemma replace_char (a b : ascii) (s : string) :
  PyStr.replace (PyStr.str1 a) (PyStr.str1 b) s =
  PyStr.map_chars (fun c => if Ascii.eqb c a then b else c) s.
Proof.
  unfold PyStr.replace.
  induction s as [|c s IH]; simpl; [reflexivity|].
  rewrite (Ascii.eqb_sym a c).
  destruct (Ascii.eqb c a); simpl; now rewrite IH.
Qed.

(* ================================================================== *)
(** ** Dicts and the normalized row *)
(* ================================================================== *)

Section DictFacts.
Context {A : Type}.
Implicit Types (d : list (string * A)) (k : string) (v : A).

Lemma dict_get_none_notin d k :
  dict_get d k = None <-> ~ In k (dict_keys d).
Proof.
  induction d as [|[k' v'] d IH]; simpl.
  - split; [intros _ [] | reflexivity].
  - destruct (String.eqb_spec k' k) as [->|Hne].
    + split; [discriminate | intros H; exfalso; apply H; now left].
    + rewrite IH. split.
      * intros H [E|E]; [congruence | exact (H E)].
      * intros H E. apply H. now right.
Qed.

(** Writing a key the dict does not hold appends it. *)
Lemma dict_set_fresh d k v :
  ~ In k (dict_keys d) -> dict_set d k v = (d ++ [(k, v)])%list.
Proof.
  induction d as [|[k' v'] d IH]; simpl; intros H; [reflexivity|].
  destruct (String.eqb_spec k' k) as [->|Hne].
  - exfalso. apply H. now left.
  - rewrite IH; [reflexivity|]. intros E. apply H. now right.
Qed.

Lemma dict_keys_app d1 d2 : dict_keys (d1 ++ d2)%list = (dict_keys d1 ++ dict_keys d2)%list.
Proof. unfold dict_keys. apply map_app. Qed.

(** Writing a key never changes the number of the other keys: the dict
    grows by one entry or keeps its size. *)
Lemma dict_set_length d k v :
  List.length (dict_set d k v) =
  match dict_get d k with
  | Some _ => List.length d
  | None => S (List.length d)
  end.
Proof.
  induction d as [|[k' v'] d IH]; simpl; [reflexivity|].
  destruct (String.eqb k' k); simpl; [reflexivity|].
  rewrite IH. destruct (dict_get d k); reflexivity.
Qed.

Lemma dict_get_app_fresh d k v :
  ~ In k (dict_keys d) -> dict_get (d ++ [(k, v)])%list k = Some v.
Proof.
  induction d as [|[k' v'] d IH]; simpl; intros H.
  - now rewrite String.eqb_refl.
  - destruct (String.eqb_spec k' k) as [->|Hne].
    + exfalso. apply H. now left.
    + apply IH. intros E. apply H. now right.
Qed.

End DictFacts.

Lemma combine_map_r {A B C : Type} (f : B -> C) (l : list A) (l' : list B) :
  combine l (map f l') = map (fun p => (fst p, f (snd p))) (combine l l').
Proof.
  revert l'. induction l as [|a l IH]; intros [|b l']; simpl; try reflexivity.
  now rewrite IH.
Qed.

Lemma fill_row_fresh (acc : pydict) (pairs : list (string * pyval)) :
  NoDup (dict_keys acc ++ map fst pairs)%list ->
  fill_row acc pairs =
  (acc ++ map (fun p => (fst p, normalize_value (snd p))) pairs)%list.
Proof.
  revert acc. induction pairs as [|[c v] pairs IH]; intros acc Hnd; simpl.
  - now rewrite app_nil_r.
  - assert (Hc : ~ In c (dict_keys acc)).
    { apply NoDup_remove_2 in Hnd. intros Hin. apply Hnd. apply in_or_app. now left. }
    rewrite dict_set_fresh by exact Hc.
    rewrite IH.
    + now rewrite <- app_assoc.
    + rewrite dict_keys_app. simpl. rewrite <- app_assoc. simpl.
      simpl in Hnd. apply NoDup_remove_1 in Hnd as Hnd'.
      apply NoDup_remove_2 in Hnd.
      clear - Hnd Hnd'.
      induction (dict_keys acc) as [|x l IHl]; simpl in Hnd, Hnd' |- *.
      * constructor; assumption.
      * inversion Hnd' as [|? ? Hx Hl]; subst. constructor.
        -- intros Hin. apply Hx. apply in_app_or in Hin.
           destruct Hin as [Hin | [-> | Hin]].
           ++ apply in_or_app. now left.
           ++ exfalso. apply Hnd. now left.
           ++ apply in_or_app. now right.
        -- apply IHl; [|assumption]. intros Hin. apply Hnd. now right.
Qed.

Lemma In_firstn {A : Type} (n : nat) (l : list A) (x : A) :
  In x (firstn n l) -> In x l.
Proof.
  revert n. induction l as [|a l IH]; intros [|n]; simpl;
    try (intros Hfalse; destruct Hfalse; fail).
  intros [E | Hin]; [now left | right; eauto].
Qed.

Lemma NoDup_firstn {A : Type} (n : nat) (l : list A) : NoDup l -> NoDup (firstn n l).
Proof.
  intros H. revert n. induction H as [|x l Hx Hnd IH]; intros [|n]; simpl;
    try constructor.
  - intros Hin. apply Hx. eapply In_firstn; eauto.
  - apply IH.
Qed.

Lemma map_fst_combine {A B : Type} (l : list A) (l' : list B) :
  map fst (combine l l') = firstn (List.length l') l.
Proof.
  revert l'. induction l as [|a l IH]; intros [|b l']; simpl; try reflexivity.
  now rewrite IH.
Qed.

(** With distinct column names the normalized row pairs each column with
    the normalized cell below it. *)
Lemma normalize_row_nodup (columns : list string) (row : list pyval) :
  NoDup columns ->
  normalize_row columns row = combine columns (map normalize_value row).
Proof.
  intros Hnd. unfold normalize_row.
  rewrite fill_row_fresh.
  - simpl. now rewrite combine_map_r.
  - simpl. rewrite map_fst_combine. now apply NoDup_firstn.
Qed.

(* ================================================================== *)
(** ** ISO-8601 strings read back as the value they print *)
(* ================================================================== *)











(* ================================================================== *)
(** ** Serialisation *)
(* ================================================================== *)

Lemma res_map_ok {A B : Type} (f : A -> res B) (l : list A) :
  Forall (fun x => exists y, f x = Ok y) l -> exists ys, res_map f l = Ok ys.
Proof.
  induction 1 as [|x l [y Hy] _ [ys Hys]]; simpl.
  - eauto.
  - rewrite Hy, Hys. simpl. eauto.
Qed.

(** [json.dumps] returns on decoded JSON. *)
Lemma json_dumps_safe (v : pyval) :
  json_safe v = true -> exists s, json_dumps v = Ok s.
Proof.
  induction v as [| b | n | f | s | l IH | d IH | | | | ] using pyval_nested_ind;
    simpl; intros Hs; try discriminate; eauto.
  - destruct b; eauto.
  - destruct (res_map_ok json_dumps l) as [ys Hys].
    + rewrite forallb_forall in Hs. rewrite Forall_forall in IH |- *.
      intros x Hx. apply IH; auto.
    + rewrite Hys. simpl. eauto.
  - match goal with |- context [res_map ?f d] =>
      destruct (res_map_ok f d) as [ys Hys] end.
    + rewrite forallb_forall in Hs. rewrite Forall_forall in IH |- *.
      intros [k x] Hx. destruct (IH _ Hx (Hs _ Hx)) as [sx Hsx].
      simpl in Hsx. rewrite Hsx. simpl. eauto.
    + rewrite Hys. simpl. eauto.
Qed.

(* ================================================================== *)
(** ** Plain strings are written as they are *)
(* ================================================================== *)

Lemma encode_chars_app (a b : string) :
  encode_chars (a ++ b) = encode_chars a ++ encode_chars b.
Proof.
  induction a as [|c a IH]; simpl; [reflexivity|].
  now rewrite IH, append_assoc.
Qed.

Lemma encode_chars_uint (u : Decimal.uint) :
  encode_chars (NilEmpty.string_of_uint u) = NilEmpty.string_of_uint u.
Proof. induction u; simpl; try reflexivity; now rewrite IHu. Qed.

(** The digits of an integer need no escape. *)
Lemma encode_chars_of_Z (n : Z) : encode_chars (PyStr.of_Z n) = PyStr.of_Z n.
Proof.
  unfold PyStr.of_Z, NilZero.string_of_int.
  destruct (Z.to_int n) as [u|u]; unfold NilZero.string_of_uint.
  - destruct u; try reflexivity; apply (encode_chars_uint (_ u)).
  - destruct u; try reflexivity;
      change (encode_chars (String "-" ?s)) with (String "-" (encode_chars s));
      cbn [encode_chars]; simpl encode_char; cbn [append];
      f_equal; apply (encode_chars_uint (_ u)).
Qed.

(* ================================================================== *)
(** ** The handlers: validation *)
(* ================================================================== *)

Ltac step_handler :=
  unfold try_except, on_exception, respond, bind, lift, ret; simpl.

(** C1. A request body that parses to an object whose [sql] field is
    missing or empty makes [execute_sql_handler] answer 400 with the body
    [{"error": "No SQL query provided"}]; one whose [messages] field is
    missing or empty makes [cortex_analyst_chat_handler] answer 400 with
    [{"error": "No messages provided"}].  Either way the state of the outside
    world is the one the handler started from: no call left the process. *)
Theorem C1_missing_input_is_rejected (w : world) (event d : pydict) (st : state) :
  json_loads (event_body event) = Ok (PDict d) ->
  (empty_or_missing d "sql" ->
   execute_sql_handler w event st =
   (Ok (mk_envelope 400 json_headers (error_text "No SQL query provided")), st)) /\
  (empty_or_missing d "messages" ->
   cortex_analyst_chat_handler w event st =
   (Ok (mk_envelope 400 json_headers (error_text "No messages provided")), st)).
Proof.
  intros Hbody. unfold empty_or_missing. split; intros Hfield.
  - unfold execute_sql_handler. step_handler. rewrite Hbody. simpl.
    destruct (dict_get d "sql") as [v|]; [rewrite Hfield|]; reflexivity.
  - unfold cortex_analyst_chat_handler. step_handler. rewrite Hbody. simpl.
    destruct (dict_get d "messages") as [v|]; [rewrite Hfield|]; reflexivity.
Qed.

(** C10. An event whose [body] key holds [None], as the local server builds
    it for a request without payload, makes both handlers answer 500 with
    the [TypeError] of [json.loads] as message and type tag: the decoder
    raises before any field is looked at, so the 400 answer is not given
    and no call leaves the process. *)
Theorem C10_none_body_is_500 :
  (forall (request : flask_request) (path method : string),
     fr_data request = EmptyString ->
     dict_get (create_api_gateway_event request path method) "body" = Some PNone) /\
  (forall (w : world) (event : pydict) (st : state),
     dict_get event "body" = Some PNone ->
     let answer :=
       mk_envelope 500 json_headers
         (typed_error_text
            "the JSON object must be str, bytes or bytearray, not NoneType"
            "TypeError") in
     execute_sql_handler w event st = (Ok answer, st) /\
     cortex_analyst_chat_handler w event st = (Ok answer, st) /\
     statusCode answer <> 400).
Proof.
  split.
  - intros request path method Hdata. simpl. now rewrite Hdata.
  - intros w event st Hbody. simpl. repeat split.
    + unfold execute_sql_handler, event_body. step_handler. now rewrite Hbody.
    + unfold cortex_analyst_chat_handler, event_body. step_handler. now rewrite Hbody.
    + discriminate.
Qed.

(* ================================================================== *)
(** ** The chat handler: errors of the remote endpoint *)
(* ================================================================== *)

Lemma respond_ok (code : Z) (payload : pyval) (b : string) (st : state) :
  json_dumps payload = Ok b ->
  respond code payload st = (Ok (mk_envelope code json_headers b), st).
Proof. intros H. unfold respond, bind, lift, ret. now rewrite H. Qed.

Lemma error_data_cases (response : http_response) :
  error_data response =
  match json_decode (text response) with
  | Ok v => v
  | Raise _ => PDict [("message", PStr (text response))]
  end.
Proof.
  unfold error_data, response_json. now destruct (json_decode (text response)).
Qed.

Lemma error_data_safe (response : http_response) :
  (forall v, json_decode (text response) = Ok v -> json_safe v = true) ->
  json_safe (error_data response) = true.
Proof.
  intros Hsafe. rewrite error_data_cases.
  destruct (json_decode (text response)) as [v|e]; [now apply Hsafe | reflexivity].
Qed.

Lemma dumps_upstream_error (code : Z) (v : pyval) (details : string) :
  json_dumps v = Ok details ->
  json_dumps (PDict [("error", PStr ("Cortex Analyst API error: " ++ PyStr.of_Z code));
                     ("details", v)]) =
  Ok (upstream_error_text code details).
Proof.
  intros H. cbn [json_dumps res_map res_bind]. rewrite H. cbn [res_bind PyStr.join].
  unfold upstream_error_text, encode_str.
  rewrite encode_chars_app, encode_chars_of_Z. reflexivity.
Qed.

Lemma chat_reaches_endpoint (w : world) (event d : pydict) (st : state)
  (response : http_response) (details : string) :
  reached w event d response ->
  status_code response <> 200 ->
  json_dumps (error_data response) = Ok details ->
  cortex_analyst_chat_handler w event st =
  (Ok (mk_envelope (status_code response) json_headers
         (upstream_error_text (status_code response) details)),
   with_call st (CallPost (sent_request w d))).
Proof.
  intros (Hbody & Hmsg & Hacc & Htok & Hpost) Hcode Hdetails.
  unfold cortex_analyst_chat_handler, try_except, bind, lift.
  rewrite Hbody. cbn [py_get].
  unfold sent_request, dict_get_default in Hmsg, Hpost |- *.
  rewrite Hmsg. cbn [negb].
  destruct (String.eqb_spec (chat_account (getenv w "SNOWFLAKE_ACCOUNT" EmptyString))
              EmptyString) as [E|_]; [contradiction|].
  destruct (String.eqb_spec (getenv w "SNOWFLAKE_TOKEN" EmptyString) EmptyString)
    as [E|_]; [contradiction|].
  cbn [orb]. unfold post, bind, lift, log_call. rewrite Hpost.
  destruct (Z.eqb_spec (status_code response) 200) as [E|_]; [contradiction|].
  rewrite (respond_ok _ _ _ _ (dumps_upstream_error _ _ _ Hdetails)).
  reflexivity.
Qed.

(** C8. When the chat handler reached the remote endpoint and the answer
    has a status other than 200, the envelope carries that status and its
    body is [{"error": "Cortex Analyst API error: <status>", "details": ...}],
    the details being the parsed body of the answer or, when it does not
    parse, [{"message": <raw text>}].  An answer 403 with the body
    [{"message": "forbidden"}] gives the status 403 and the details
    [{"message": "forbidden"}]. *)
Theorem C8_upstream_error_is_relayed (w : world) (event d : pydict) (st : state)
  (response : http_response) :
  reached w event d response ->
  status_code response <> 200 ->
  (forall v, json_decode (text response) = Ok v -> json_safe v = true) ->
  (error_data response =
     match json_decode (text response) with
     | Ok v => v
     | Raise _ => PDict [("message", PStr (text response))]
     end) /\
  (exists details : string,
     json_dumps (error_data response) = Ok details /\
     cortex_analyst_chat_handler w event st =
     (Ok (mk_envelope (status_code response) json_headers
            (upstream_error_text (status_code response) details)),
      with_call st (CallPost (sent_request w d)))) /\
  (status_code response = 403 ->
   json_decode (text response) = Ok (PDict [("message", PStr "forbidden")]) ->
   cortex_analyst_chat_handler w event st =
   (Ok (mk_envelope 403 json_headers (upstream_error_text 403 forbidden_text)),
    with_call st (CallPost (sent_request w d)))).
Proof.
  intros Hreach Hcode Hsafe. split; [apply error_data_cases|]. split.
  - destruct (json_dumps_safe _ (error_data_safe _ Hsafe)) as [details Hd].
    exists details. split; [exact Hd|]. now apply chat_reaches_endpoint.
  - intros H403 Hjson.
    rewrite (chat_reaches_endpoint w event d st response forbidden_text);
      try assumption.
    + now rewrite H403.
    + rewrite error_data_cases, Hjson. reflexivity.
Qed.


(* ================================================================== *)
(** ** Credentials *)
(* ================================================================== *)





(* ================================================================== *)
(** ** The SQL handler: the statement check and the connection *)
(* ================================================================== *)

Lemma get_snowflake_connection_args (w : world) :
  get_snowflake_connection w = connector_connect w (connection_args w).
Proof. reflexivity. Qed.

(** The handler up to the statement check. *)
Lemma execute_sql_checked (w : world) (event d : pydict) (st : state) (sql : pyval) :
  json_loads (event_body event) = Ok (PDict d) ->
  dict_get d "sql" = Some sql ->
  truthy sql = true ->
  execute_sql_handler w event st =
  try_except
    (get_snowflake_connection w ;;;
     conn_cursor w ;;;
     cursor_execute w sql ;;;
     let columns := sf_description w sql in
     rows <- cursor_fetchall w sql ;;
     let results := normalize_rows columns rows in
     cursor_close ;;;
     conn_close ;;;
     respond 200
       (PDict [("columns", PList (map PStr columns));
               ("data", PList (map PDict results));
               ("row_count", PInt (Z.of_nat (List.length results)))]))%py
    (fun _ => true) on_exception st.
Proof.
  intros Hbody Hsql Htrue.
  unfold execute_sql_handler, try_except, bind at 1 2, lift.
  rewrite Hbody. cbn [py_get]. rewrite Hsql, Htrue. reflexivity.
Qed.

Lemma on_exception_ok (e : exn) (st : state) :
  exists b, on_exception e st = (Ok (mk_envelope 500 json_headers b), st).
Proof. eexists. reflexivity. Qed.

(** C4, as the code has it.  An empty statement is turned down with the
    400 answer before any connection; a statement that is not empty, even
    one of white space only, passes the check and the first thing the
    handler does is to connect. *)
Theorem C4_only_the_empty_statement_fails_fast (w : world) (event d : pydict)
  (st : state) (s : string) :
  json_loads (event_body event) = Ok (PDict d) ->
  dict_get d "sql" = Some (PStr s) ->
  (s = EmptyString ->
   execute_sql_handler w event st =
   (Ok (mk_envelope 400 json_headers (error_text "No SQL query provided")), st)) /\
  (s <> EmptyString ->
   exists r st' rest,
     execute_sql_handler w event st = (r, st') /\
     calls st' = (calls st ++ CallConnect (connection_args w) :: rest)%list).
Proof.
  intros Hbody Hsql. split.
  - intros ->. unfold execute_sql_handler, try_except, bind, lift.
    rewrite Hbody. cbn [py_get]. rewrite Hsql. reflexivity.
  - intros Hne.
    rewrite (execute_sql_checked w event d st (PStr s) Hbody Hsql).
    2:{ simpl. now destruct (String.eqb_spec s EmptyString). }
    unfold try_except, bind, get_snowflake_connection, connector_connect.
    fold (connection_args w).
    destruct (sf_connect w (connection_args w)) as [[]|e].
    + unfold conn_cursor. cbn [calls open_connections open_cursors].
      destruct (sf_cursor w) as [[]|e].
      * unfold cursor_execute, cursor_fetchall, log_call, bind, lift.
        cbn [calls open_connections open_cursors].
        destruct (sf_execute w (PStr s)) as [[]|e].
        -- destruct (sf_fetchall w (PStr s)) as [rows|e].
           ++ unfold cursor_close, conn_close, respond, bind, lift, ret.
              cbn [calls open_connections open_cursors].
              match goal with |- context [json_dumps ?p] =>
                destruct (json_dumps p) as [b|e] end.
              ** do 3 eexists. split; [reflexivity|]. cbn [calls].
                 rewrite <- !app_assoc. reflexivity.
              ** cbn [calls]. do 3 eexists. split; [reflexivity|]. cbn [calls].
                 rewrite <- !app_assoc. reflexivity.
           ++ do 3 eexists. split; [reflexivity|]. cbn [calls].
              rewrite <- !app_assoc. reflexivity.
        -- do 3 eexists. split; [reflexivity|]. cbn [calls].
           rewrite <- !app_assoc. reflexivity.
      * do 3 eexists. split; [reflexivity|]. cbn [calls]. reflexivity.
    + do 3 eexists. split; [reflexivity|]. cbn [calls]. reflexivity.
Qed.


(* ================================================================== *)
(** ** The SQL handler: connections and cursors *)
(* ================================================================== *)

(** When the statement runs and the rows arrive, the handler closes the
    cursor and the connection it opened, whatever [json.dumps] does with
    the rows afterwards. *)
Lemma execute_sql_releases_on_success (w : world) (event d : pydict) (st : state)
  (sql : pyval) (rows : list (list pyval)) :
  json_loads (event_body event) = Ok (PDict d) ->
  dict_get d "sql" = Some sql ->
  truthy sql = true ->
  sf_connect w (connection_args w) = Ok tt ->
  sf_cursor w = Ok tt ->
  sf_execute w sql = Ok tt ->
  sf_fetchall w sql = Ok rows ->
  exists e st',
    execute_sql_handler w event st = (Ok e, st') /\
    open_connections st' = open_connections st /\
    open_cursors st' = open_cursors st.
Proof.
  intros Hbody Hsql Htrue Hconn Hcur Hexec Hfetch.
  rewrite (execute_sql_checked w event d st sql Hbody Hsql Htrue).
  unfold try_except, bind, get_snowflake_connection, connector_connect.
  fold (connection_args w). rewrite Hconn.
  unfold conn_cursor. rewrite Hcur.
  unfold cursor_execute, cursor_fetchall, log_call, bind, lift.
  rewrite Hexec, Hfetch.
  unfold cursor_close, conn_close, respond, bind, lift, ret.
  cbn [calls open_connections open_cursors Nat.pred].
  match goal with |- context [json_dumps ?p] => destruct (json_dumps p) as [b|e] end.
  - do 2 eexists. split; [reflexivity|]. split; reflexivity.
  - do 2 eexists. split; [reflexivity|]. split; reflexivity.
Qed.

(** When the statement fails, the handler answers 500 and returns with the
    connection and the cursor still open: the two [close] calls are on the
    path of success only. *)
Lemma execute_sql_leaks_on_statement_error (w : world) (event d : pydict)
  (st : state) (sql : pyval) (err : exn) :
  json_loads (event_body event) = Ok (PDict d) ->
  dict_get d "sql" = Some sql ->
  truthy sql = true ->
  sf_connect w (connection_args w) = Ok tt ->
  sf_cursor w = Ok tt ->
  sf_execute w sql = Raise err ->
  exists e st',
    execute_sql_handler w event st = (Ok e, st') /\
    statusCode e = 500 /\
    open_connections st' = S (open_connections st) /\
    open_cursors st' = S (open_cursors st).
Proof.
  intros Hbody Hsql Htrue Hconn Hcur Hexec.
  rewrite (execute_sql_checked w event d st sql Hbody Hsql Htrue).
  unfold try_except, bind, get_snowflake_connection, connector_connect.
  fold (connection_args w). rewrite Hconn.
  unfold conn_cursor. rewrite Hcur.
  unfold cursor_execute, log_call, bind, lift.
  rewrite Hexec.
  do 2 eexists. split; [reflexivity|]. repeat split.
Qed.

(* ================================================================== *)
(** ** Normalization of a result set *)
(* ================================================================== *)

(** A cell of a declared JSON-compatible type is JSON once normalized. *)
Lemma normalize_value_json_cell (v : pyval) :
  json_cell v = true -> json_safe (normalize_value v) = true.
Proof. destruct v; simpl; intros H; try discriminate; reflexivity. Qed.

(** A cell of any other class is left as it is, and [json.dumps] refuses
    it. *)
Lemma normalize_value_object (cls : string) :
  normalize_value (PObject cls) = PObject cls /\
  json_dumps (PObject cls) =
  Raise (TypeError ("Object of type " ++ cls ++ " is not JSON serializable")).
Proof. split; reflexivity. Qed.

Lemma normalize_rows_length (columns : list string) (rows : list (list pyval)) :
  List.length (normalize_rows columns rows) = List.length rows.
Proof. unfold normalize_rows. apply length_map. Qed.

Lemma normalize_row_keys (columns : list string) (row : list pyval) :
  NoDup columns -> List.length row = List.length columns ->
  dict_keys (normalize_row columns row) = columns /\
  List.length (normalize_row columns row) = List.length columns.
Proof.
  intros Hnd Hlen. rewrite normalize_row_nodup by exact Hnd.
  unfold dict_keys. rewrite map_fst_combine, length_combine, !length_map, Hlen.
  rewrite firstn_all, Nat.min_id. split; reflexivity.
Qed.

(** C6. For a result set with distinct column names and rows as long as
    the list of columns, normalization gives one dict for each row, each
    with one entry for each column, in the order of the columns; and it is
    a function of the columns and the rows alone. *)
Theorem C6_normalization_preserves_shape (columns : list string)
  (rows : list (list pyval)) :
  NoDup columns ->
  (forall row, In row rows -> List.length row = List.length columns) ->
  List.length (normalize_rows columns rows) = List.length rows /\
  (forall r, In r (normalize_rows columns rows) ->
     List.length r = List.length columns /\ dict_keys r = columns) /\
  (forall columns' rows', columns' = columns -> rows' = rows ->
     normalize_rows columns' rows' = normalize_rows columns rows).
Proof.
  intros Hnd Hrows. split; [apply normalize_rows_length|]. split.
  - intros r Hr. unfold normalize_rows in Hr. apply in_map_iff in Hr.
    destruct Hr as (row & <- & Hrow).
    destruct (normalize_row_keys columns row Hnd (Hrows row Hrow)) as [Hk Hl].
    split; assumption.
  - intros columns' rows' -> ->. reflexivity.
Qed.



(* ================================================================== *)
(** ** The account identifier *)
(* ================================================================== *)

Lemma snowflake_domain_nonempty : snowflake_domain <> EmptyString.
Proof. discriminate. Qed.

(** The connection path keeps what stands before the first occurrence of
    the domain and drops the rest. *)
Lemma clean_account_strips (a : string) :
  PyStr.contains snowflake_domain a = true ->
  exists head rest,
    a = head ++ snowflake_domain ++ rest /\
    PyStr.contains snowflake_domain head = false /\
    clean_account (Some a) = Some head.
Proof.
  intros Hin.
  destruct (split_head_cut _ _ Hin) as [rest Hcut].
  exists (PyStr.split_head snowflake_domain a), rest.
  split; [exact Hcut|]. split.
  - apply split_head_first, snowflake_domain_nonempty.
  - unfold clean_account. rewrite Hin.
    destruct (String.eqb_spec a EmptyString) as [->|_]; [discriminate Hin|].
    reflexivity.
Qed.

(** The chat path removes the occurrences of the domain and keeps the text
    between and after them. *)
Lemma chat_account_keeps_rest (a : string) :
  PyStr.contains snowflake_domain a = true ->
  exists rest,
    a = PyStr.split_head snowflake_domain a ++ snowflake_domain ++ rest /\
    chat_account a =
    PyStr.split_head snowflake_domain a ++
    PyStr.replace snowflake_domain EmptyString rest.
Proof.
  intros Hin.
  destruct (split_head_cut _ _ Hin) as [rest Hcut].
  exists rest. split; [exact Hcut|].
  unfold chat_account. rewrite Hin.
  rewrite replace_before_occurrence. f_equal.
  rewrite Hcut at 2. rewrite drop_app.
  rewrite replace_at_occurrence by apply snowflake_domain_nonempty.
  reflexivity.
Qed.

(** The two paths agree on an account that ends with the domain. *)
Lemma chat_account_suffix (head : string) :
  PyStr.contains snowflake_domain head = false ->
  PyStr.split_head snowflake_domain (head ++ snowflake_domain) = head ->
  chat_account (head ++ snowflake_domain) = head /\
  clean_account (Some (head ++ snowflake_domain)) = Some head.
Proof.
  intros Hhead Hsplit.
  assert (Hin : PyStr.contains snowflake_domain (head ++ snowflake_domain) = true).
  { rewrite <- (append_empty_r snowflake_domain) at 2. apply contains_app. }
  split.
  - destruct (chat_account_keeps_rest _ Hin) as (rest & Hcut & Hchat).
    rewrite Hchat, Hsplit. rewrite Hsplit in Hcut.
    assert (rest = EmptyString) as ->.
    { clear - Hcut. induction head as [|c head IH]; simpl in Hcut.
      - unfold snowflake_domain in Hcut. simpl in Hcut.
        destruct rest; [reflexivity | discriminate].
      - injection Hcut as Hcut. auto. }
    apply append_empty_r.
  - unfold clean_account. rewrite Hin, Hsplit.
    destruct (String.eqb_spec (head ++ snowflake_domain) EmptyString) as [E|_];
      [|reflexivity].
    destruct head; discriminate E.
Qed.

(** The account of the URL is the account with each underscore turned into
    a hyphen; the account itself is left as it was. *)
Lemma account_url_hyphens (account : string) :
  account_url account =
  PyStr.map_chars (fun c => if Ascii.eqb c "_" then "-"%char else c) account.
Proof. apply (replace_char "_" "-"). Qed.

(* ================================================================== *)
(** ** Further properties: rows and accounts *)
(* ================================================================== *)

(** Reading a dict after a write: the key written holds the new value,
    every other key what it held. *)
Lemma dict_get_set {A : Type} (d : list (string * A)) (k k' : string) (v : A) :
  dict_get (dict_set d k v) k' = if String.eqb k k' then Some v else dict_get d k'.
Proof.
  induction d as [|[k0 v0] d IH]; simpl.
  - reflexivity.
  - destruct (String.eqb_spec k0 k) as [->|Hne]; simpl.
    + destruct (String.eqb k k'); reflexivity.
    + rewrite IH. destruct (String.eqb_spec k0 k') as [->|Hne'].
      * destruct (String.eqb_spec k k') as [E|_]; [congruence | reflexivity].
      * reflexivity.
Qed.

Lemma dict_keys_set {A : Type} (d : list (string * A)) (k : string) (v : A) :
  dict_keys (dict_set d k v) =
  if existsb (String.eqb k) (dict_keys d) then dict_keys d
  else (dict_keys d ++ [k])%list.
Proof.
  induction d as [|[k0 v0] d IH]; simpl; [reflexivity|].
  rewrite (String.eqb_sym k k0).
  destruct (String.eqb k0 k); simpl; [reflexivity|].
  rewrite IH. destruct (existsb (String.eqb k) (dict_keys d)); reflexivity.
Qed.

Lemma existsb_eqb_In (k : string) (l : list string) :
  existsb (String.eqb k) l = true <-> In k l.
Proof.
  rewrite existsb_exists. split.
  - intros (x & Hx & E). apply String.eqb_eq in E. now subst.
  - intros H. exists k. split; [exact H | apply String.eqb_refl].
Qed.

Lemma dict_set_keys_nodup {A : Type} (d : list (string * A)) (k : string) (v : A) :
  NoDup (dict_keys d) -> NoDup (dict_keys (dict_set d k v)).
Proof.
  intros Hnd. rewrite dict_keys_set.
  destruct (existsb (String.eqb k) (dict_keys d)) eqn:E; [exact Hnd|].
  apply NoDup_app; [exact Hnd | repeat constructor; intros [] |].
  intros x Hx [<- | []].
  apply existsb_eqb_In in Hx. congruence.
Qed.

Lemma dict_set_length_le {A : Type} (d : list (string * A)) (k : string) (v : A) :
  (List.length (dict_set d k v) <= S (List.length d))%nat.
Proof. rewrite dict_set_length. destruct (dict_get d k); lia. Qed.

Lemma dict_get_app_last {A : Type} (d : list (string * A)) (k k' : string) (v : A) :
  dict_get (d ++ [(k, v)])%list k' =
  match dict_get d k' with
  | Some x => Some x
  | None => if String.eqb k k' then Some v else None
  end.
Proof.
  induction d as [|[k0 v0] d IH]; simpl; [reflexivity|].
  destruct (String.eqb k0 k'); [reflexivity | exact IH].
Qed.

Lemma fill_row_get (acc : pydict) (pairs : list (string * pyval)) (col : string) :
  dict_get (fill_row acc pairs) col =
  match dict_get (rev pairs) col with
  | Some v => Some (normalize_value v)
  | None => dict_get acc col
  end.
Proof.
  revert acc. induction pairs as [|[c v] pairs IH]; intros acc; simpl.
  - reflexivity.
  - rewrite IH, dict_get_app_last, dict_get_set.
    destruct (dict_get (rev pairs) col); [reflexivity|].
    destruct (String.eqb c col); reflexivity.
Qed.

Lemma fill_row_keys_nodup (acc : pydict) (pairs : list (string * pyval)) :
  NoDup (dict_keys acc) -> NoDup (dict_keys (fill_row acc pairs)).
Proof.
  revert acc. induction pairs as [|[c v] pairs IH]; intros acc H; simpl;
    [exact H | apply IH, dict_set_keys_nodup, H].
Qed.

Lemma fill_row_length (acc : pydict) (pairs : list (string * pyval)) :
  (List.length (fill_row acc pairs) <= List.length acc + List.length pairs)%nat.
Proof.
  revert acc. induction pairs as [|[c v] pairs IH]; intros acc; simpl; [lia|].
  specialize (IH (dict_set acc c (normalize_value v))).
  pose proof (dict_set_length_le acc c (normalize_value v)). lia.
Qed.

(** X1. Whatever the column names are, a normalized row holds each name
    once, and under a name the normalized cell of the last column that
    bears it: with two columns of the same name the earlier cell is lost
    and the row has fewer entries than there are columns. *)
Theorem X1_duplicate_column_names_last_wins (columns : list string)
  (row : list pyval) :
  NoDup (dict_keys (normalize_row columns row)) /\
  (List.length (normalize_row columns row) <= List.length columns)%nat /\
  (forall col,
     dict_get (normalize_row columns row) col =
     match dict_get (rev (combine columns row)) col with
     | Some v => Some (normalize_value v)
     | None => None
     end) /\
  (forall c x y,
     normalize_row [c; c] [x; y] = [(c, normalize_value y)]).
Proof.
  unfold normalize_row. split; [apply fill_row_keys_nodup; constructor|].
  split.
  - pose proof (fill_row_length [] (combine columns row)) as H.
    rewrite length_combine in H. simpl in H. lia.
  - split; [intros col; apply fill_row_get|].
    intros c x y. simpl. now rewrite String.eqb_refl.
Qed.

Lemma dict_set_values (P : pyval -> Prop) (d : pydict) (k : string) (v : pyval) :
  Forall (fun kv => P (snd kv)) d -> P v ->
  Forall (fun kv => P (snd kv)) (dict_set d k v).
Proof.
  intros Hd Hv. induction Hd as [|[k0 v0] d H0 Hd IH]; simpl.
  - repeat constructor. exact Hv.
  - destruct (String.eqb k0 k); constructor; auto.
Qed.

Lemma fill_row_values (P : pyval -> Prop) (acc : pydict)
  (pairs : list (string * pyval)) :
  Forall (fun kv => P (snd kv)) acc ->
  Forall (fun kv => P (normalize_value (snd kv))) pairs ->
  Forall (fun kv => P (snd kv)) (fill_row acc pairs).
Proof.
  intros Hacc Hpairs. revert acc Hacc.
  induction Hpairs as [|[c v] pairs Hv Hpairs IH]; intros acc Hacc; simpl.
  - exact Hacc.
  - apply IH, dict_set_values; assumption.
Qed.

Lemma Forall_combine_r {A B : Type} (P : B -> Prop) (l : list A) (l' : list B) :
  Forall P l' -> Forall (fun p => P (snd p)) (combine l l').
Proof.
  intros H. revert l. induction H as [|b l' Hb H IH]; intros [|a l]; simpl;
    constructor; auto.
Qed.

(** Rows of cells of the declared JSON-compatible types are JSON once
    normalized. *)
Lemma normalize_rows_safe (columns : list string) (rows : list (list pyval)) :
  Forall (Forall (fun v => json_cell v = true)) rows ->
  forallb json_safe (map PDict (normalize_rows columns rows)) = true.
Proof.
  intros Hrows. apply forallb_forall. intros x Hx.
  apply in_map_iff in Hx. destruct Hx as (r & <- & Hr).
  unfold normalize_rows in Hr. apply in_map_iff in Hr.
  destruct Hr as (row & <- & Hrow).
  rewrite Forall_forall in Hrows. specialize (Hrows row Hrow).
  simpl. apply forallb_forall. intros kv Hkv.
  assert (H : Forall (fun kv => json_safe (snd kv) = true)
                (normalize_row columns row)).
  { unfold normalize_row.
    apply (fill_row_values (fun v => json_safe v = true)); [constructor|].
    apply (Forall_combine_r (fun v => json_safe (normalize_value v) = true)).
    eapply Forall_impl; [|exact Hrows]. apply normalize_value_json_cell. }
  rewrite Forall_forall in H. now apply H.
Qed.

Lemma sql_payload_safe (columns : list string) (rows : list (list pyval)) :
  Forall (Forall (fun v => json_cell v = true)) rows ->
  json_safe (sql_payload columns rows) = true.
Proof.
  intros Hrows. simpl. rewrite normalize_rows_safe by exact Hrows.
  rewrite andb_true_r.
  apply forallb_forall. intros x Hx. apply in_map_iff in Hx.
  destruct Hx as (c & <- & _). reflexivity.
Qed.

Lemma contains_empty (sub : string) :
  sub <> EmptyString -> PyStr.contains sub EmptyString = false.
Proof. destruct sub; [congruence | reflexivity]. Qed.

(** X13. The account [get_snowflake_connection] and the connection test
    connect with never holds the domain: cleaning cuts at its first
    occurrence, so cleaning again changes nothing.  The chat handler's
    removal can leave the domain in: removing one occurrence may join the
    text around it into another. *)
Theorem X13_clean_account_is_free_of_domain :
  (forall a a', clean_account (Some a) = Some a' ->
     PyStr.contains snowflake_domain a' = false /\
     clean_account (Some a') = Some a') /\
  (forall w, match ca_account (connection_args w) with
             | Some a => PyStr.contains snowflake_domain a = false
             | None => environ w "SNOWFLAKE_ACCOUNT" = None
             end) /\
  PyStr.contains snowflake_domain
    (chat_account ".snowflake.snowflakecomputing.comcomputing.com") = true.
Proof.
  assert (Hfree : forall a a', clean_account (Some a) = Some a' ->
                    PyStr.contains snowflake_domain a' = false).
  { intros a a' H. unfold clean_account in H.
    destruct (String.eqb_spec a EmptyString) as [->|Hne]; simpl in H.
    - injection H as <-. reflexivity.
    - destruct (PyStr.contains snowflake_domain a) eqn:E; injection H as <-.
      + apply split_head_first, snowflake_domain_nonempty.
      + exact E. }
  split; [|split].
  - intros a a' H. split; [eapply Hfree; eauto|].
    unfold clean_account. rewrite (Hfree _ _ H).
    now rewrite andb_false_r.
  - intros w. unfold connection_args. cbn [ca_account].
    destruct (environ w "SNOWFLAKE_ACCOUNT") as [a|] eqn:E; [|reflexivity].
    destruct (clean_account (Some a)) as [a'|] eqn:E'.
    + eapply Hfree; eauto.
    + simpl in E'. destruct (_ && _) in E'; discriminate.
  - vm_compute. reflexivity.
Qed.

Lemma map_chars_length (f : ascii -> ascii) (s : string) :
  String.length (PyStr.map_chars f s) = String.length s.
Proof. induction s as [|c s IH]; simpl; [reflexivity | now rewrite IH]. Qed.

(** X14. The account that goes into the URL has the length of the account,
    holds no underscore, and is the account itself when that has none. *)
Theorem X14_account_url_has_no_underscore (account : string) :
  PyStr.contains "_" (account_url account) = false /\
  String.length (account_url account) = String.length account /\
  (PyStr.contains "_" account = false -> account_url account = account).
Proof.
  rewrite account_url_hyphens. split; [|split].
  - induction account as [|c s IH]; [reflexivity|].
    cbn [PyStr.map_chars PyStr.contains]. rewrite IH, orb_false_r.
    cbn [PyStr.starts_with]. rewrite andb_true_r.
    destruct (Ascii.eqb_spec c "_") as [->|Hne].
    + reflexivity.
    + rewrite Ascii.eqb_sym. now apply Ascii.eqb_neq.
  - apply map_chars_length.
  - induction account as [|c s IH]; [reflexivity|].
    cbn [PyStr.map_chars PyStr.contains PyStr.starts_with].
    rewrite andb_true_r. intros H. apply orb_false_iff in H.
    destruct H as [Hc Hs]. rewrite IH by exact Hs.
    rewrite Ascii.eqb_sym in Hc. now rewrite Hc.
Qed.
(* ================================================================== *)
(** ** Further properties: the SQL handler *)
(* ================================================================== *)

Lemma on_exception_text (e : exn) (st : state) :
  on_exception e st = (Ok (mk_envelope 500 json_headers (exception_text e)), st).
Proof. reflexivity. Qed.

(** The handler is the statement check followed by [run_statement] under
    the [except] clause. *)
Lemma execute_sql_handler_run (w : world) (event : pydict) (st : state)
  (v sql : pyval) :
  json_loads (event_body event) = Ok v ->
  py_get v "sql" (PStr EmptyString) = Ok sql ->
  truthy sql = true ->
  execute_sql_handler w event st =
  try_except (run_statement w sql) (fun _ => true) on_exception st.
Proof.
  intros Hbody Hsql Htrue.
  unfold execute_sql_handler, run_statement, try_except, bind at 1 2, lift.
  rewrite Hbody, Hsql, Htrue. reflexivity.
Qed.

(** What [run_statement] does, by the outcome of each call: the calls it
    logs, the connection and the cursor it holds when it stops. *)
Lemma run_statement_outcome (w : world) (sql : pyval) (st : state) :
  let c1 := (calls st ++ [CallConnect (connection_args w)])%list in
  let c2 := (calls st ++ [CallConnect (connection_args w); CallExecute sql])%list in
  let c3 := (calls st ++ [CallConnect (connection_args w); CallExecute sql;
                          CallFetch])%list in
  let n := open_connections st in
  let m := open_cursors st in
  run_statement w sql st =
  match sf_connect w (connection_args w) with
  | Raise e => (Raise e, mk_state c1 n m)
  | Ok _ =>
      match sf_cursor w with
      | Raise e => (Raise e, mk_state c1 (S n) m)
      | Ok _ =>
          match sf_execute w sql with
          | Raise e => (Raise e, mk_state c2 (S n) (S m))
          | Ok _ =>
              match sf_fetchall w sql with
              | Raise e => (Raise e, mk_state c3 (S n) (S m))
              | Ok rows =>
                  match json_dumps (sql_payload (sf_description w sql) rows) with
                  | Ok b => (Ok (mk_envelope 200 json_headers b), mk_state c3 n m)
                  | Raise e => (Raise e, mk_state c3 n m)
                  end
              end
          end
      end
  end.
Proof.
  cbv zeta.
  unfold run_statement, bind, get_snowflake_connection, connector_connect.
  fold (connection_args w).
  destruct (sf_connect w (connection_args w)) as [[]|e]; [|reflexivity].
  unfold conn_cursor. cbn [calls open_connections open_cursors].
  destruct (sf_cursor w) as [[]|e]; [|reflexivity].
  unfold cursor_execute, cursor_fetchall, log_call, bind, lift.
  cbn [calls open_connections open_cursors].
  rewrite <- ?app_assoc. cbn [app].
  destruct (sf_execute w sql) as [[]|e]; [|reflexivity].
  rewrite <- ?app_assoc. cbn [app].
  destruct (sf_fetchall w sql) as [rows|e]; [|reflexivity].
  unfold cursor_close, conn_close, respond, bind, lift, ret.
  cbn [calls open_connections open_cursors Nat.pred].
  unfold sql_payload. rewrite normalize_rows_length.
  destruct (json_dumps _) as [b|e]; reflexivity.
Qed.

(** X2. A statement that runs, with cells of the declared JSON-compatible
    types: the handler answers 200 with the column names, the normalized
    rows and [row_count] the number of rows fetched; it made three calls
    (connect, execute the statement as the request gave it, fetch) and
    closed the cursor and the connection. *)
Theorem X2_statement_success (w : world) (event d : pydict) (st : state)
  (sql : pyval) (rows : list (list pyval)) :
  json_loads (event_body event) = Ok (PDict d) ->
  dict_get d "sql" = Some sql ->
  truthy sql = true ->
  sf_connect w (connection_args w) = Ok tt ->
  sf_cursor w = Ok tt ->
  sf_execute w sql = Ok tt ->
  sf_fetchall w sql = Ok rows ->
  Forall (Forall (fun v => json_cell v = true)) rows ->
  exists b,
    json_dumps (sql_payload (sf_description w sql) rows) = Ok b /\
    execute_sql_handler w event st =
    (Ok (mk_envelope 200 json_headers b),
     mk_state (calls st ++ [CallConnect (connection_args w); CallExecute sql;
                            CallFetch])
       (open_connections st) (open_cursors st)).
Proof.
  intros Hbody Hsql Htrue Hconn Hcur Hexec Hfetch Hcells.
  destruct (json_dumps_safe _ (sql_payload_safe (sf_description w sql) rows Hcells))
    as [b Hb].
  exists b. split; [exact Hb|].
  rewrite (execute_sql_handler_run w event st (PDict d) sql Hbody); try assumption.
  2:{ simpl. now rewrite Hsql. }
  unfold try_except. rewrite run_statement_outcome. cbv zeta.
  rewrite Hconn, Hcur, Hexec, Hfetch, Hb. reflexivity.
Qed.


(** X4. Whatever the event and the world, [execute_sql_handler] returns an
    envelope and raises nothing; the status is 200, 400 or 500, the headers
    are the JSON and CORS headers, and the calls it made are a start of
    connect, execute, fetch: it never posts to the chat endpoint. *)
Theorem X4_sql_handler_always_answers (w : world) (event : pydict) (st : state) :
  exists e st' made,
    execute_sql_handler w event st = (Ok e, st') /\
    (statusCode e = 200 \/ statusCode e = 400 \/ statusCode e = 500) /\
    headers e = json_headers /\
    calls st' = (calls st ++ made)%list /\
    (made = [] \/
     exists sql,
       made = firstn (List.length made)
                [CallConnect (connection_args w); CallExecute sql; CallFetch]).
Proof.
  destruct (json_loads (event_body event)) as [v|e0] eqn:Hbody.
  2:{ unfold execute_sql_handler, try_except, bind, lift. rewrite Hbody.
      rewrite on_exception_text.
      exists (mk_envelope 500 json_headers (exception_text e0)), st, [].
      rewrite app_nil_r. cbn. auto 10. }
  destruct (py_get v "sql" (PStr EmptyString)) as [sql|e0] eqn:Hsql.
  2:{ unfold execute_sql_handler, try_except, bind, lift. rewrite Hbody, Hsql.
      rewrite on_exception_text.
      exists (mk_envelope 500 json_headers (exception_text e0)), st, [].
      rewrite app_nil_r. cbn. auto 10. }
  destruct (truthy sql) eqn:Htrue.
  2:{ unfold execute_sql_handler, try_except, bind, lift.
      rewrite Hbody, Hsql, Htrue. cbn [negb].
      exists (mk_envelope 400 json_headers (error_text "No SQL query provided")),
        st, []. rewrite app_nil_r. cbn. auto 10. }
  rewrite (execute_sql_handler_run w event st v sql Hbody Hsql Htrue).
  unfold try_except. rewrite run_statement_outcome. cbv zeta.
  destruct (sf_connect w (connection_args w)) as [[]|e1].
  2:{ rewrite on_exception_text. do 3 eexists. split; [reflexivity|].
      cbn. split; [auto|]. split; [reflexivity|]. split; [reflexivity|].
      right. exists sql. reflexivity. }
  destruct (sf_cursor w) as [[]|e2].
  2:{ rewrite on_exception_text. do 3 eexists. split; [reflexivity|].
      cbn. split; [auto|]. split; [reflexivity|]. split; [reflexivity|].
      right. exists sql. reflexivity. }
  destruct (sf_execute w sql) as [[]|e3].
  2:{ rewrite on_exception_text. do 3 eexists. split; [reflexivity|].
      cbn. split; [auto|]. split; [reflexivity|]. split; [reflexivity|].
      right. exists sql. reflexivity. }
  destruct (sf_fetchall w sql) as [rows|e4].
  2:{ rewrite on_exception_text. do 3 eexists. split; [reflexivity|].
      cbn. split; [auto|]. split; [reflexivity|]. split; [reflexivity|].
      right. exists sql. reflexivity. }
  destruct (json_dumps _) as [b|e5].
  - do 3 eexists. split; [reflexivity|].
    cbn. split; [auto|]. split; [reflexivity|]. split; [reflexivity|].
    right. exists sql. reflexivity.
  - rewrite on_exception_text. do 3 eexists. split; [reflexivity|].
    cbn. split; [auto|]. split; [reflexivity|]. split; [reflexivity|].
    right. exists sql. reflexivity.
Qed.
(* ================================================================== *)
(** ** Further properties: what [json.dumps] raises *)
(* ================================================================== *)

Lemma res_map_raise {A B : Type} (f : A -> res B) (l : list A) (e : exn) :
  res_map f l = Raise e -> exists x, In x l /\ f x = Raise e.
Proof.
  induction l as [|x l IH]; simpl; [discriminate|].
  destruct (f x) as [y|e'] eqn:Hx; simpl.
  - destruct (res_map f l) as [ys|e'']; simpl; [discriminate|].
    intros [= <-]. destruct (IH eq_refl) as (x' & Hin & Hx').
    exists x'. split; [now right | exact Hx'].
  - intros [= <-]. exists x. split; [now left | exact Hx].
Qed.

(** The only exception of [json.dumps] is the [TypeError] on an object
    it cannot write. *)
Lemma json_dumps_raises (v : pyval) (e : exn) :
  json_dumps v = Raise e -> exists x, e = not_serializable x.
Proof.
  revert e.
  induction v as [| b | n | f | s | l IH | d IH | | | | ] using pyval_nested_ind;
    intros e; simpl; try discriminate;
    try (intros [= <-]; eexists; reflexivity).
  - destruct b; discriminate.
  - destruct (res_map json_dumps l) as [ys|e'] eqn:Hl; simpl; [discriminate|].
    intros [= <-]. destruct (res_map_raise _ _ _ Hl) as (x & Hin & Hx).
    rewrite Forall_forall in IH. exact (IH x Hin _ Hx).
  - match goal with |- context [res_map ?f d] =>
      destruct (res_map f d) as [ys|e'] eqn:Hd end; simpl; [discriminate|].
    intros [= <-]. destruct (res_map_raise _ _ _ Hd) as ([k x] & Hin & Hx).
    rewrite Forall_forall in IH. specialize (IH _ Hin). simpl in IH.
    destruct (json_dumps x) as [sx|e''] eqn:Hjx; simpl in Hx; [discriminate|].
    injection Hx as <-. exact (IH _ eq_refl).
Qed.

Lemma json_dumps_raises_type_error (v : pyval) (e : exn) :
  json_dumps v = Raise e -> exn_is_request e = false /\ exn_class e = "TypeError".
Proof.
  intros H. destruct (json_dumps_raises v e H) as [x ->]. split; reflexivity.
Qed.


(* ================================================================== *)
(** ** Further properties: malformed bodies and the chat handler *)
(* ================================================================== *)

Lemma chat_except_answer (e : exn) (st : state) :
  chat_except e st = (Ok (mk_envelope 500 json_headers (chat_except_text e)), st).
Proof.
  unfold chat_except, chat_except_text.
  destruct (exn_is_request e); reflexivity.
Qed.

(** X5. A body that does not decode, or that decodes to something other
    than an object, is answered with 500 and the message and class of the
    exception ([AttributeError] for a list, a string or a number, which
    have no [get]); the 400 answers are for objects only.  No call is
    made. *)
Theorem X5_malformed_body_is_500 (w : world) (event : pydict) (st : state) :
  (forall err,
     json_loads (event_body event) = Raise err ->
     execute_sql_handler w event st =
       (Ok (mk_envelope 500 json_headers (exception_text err)), st) /\
     cortex_analyst_chat_handler w event st =
       (Ok (mk_envelope 500 json_headers (chat_except_text err)), st)) /\
  (forall v,
     json_loads (event_body event) = Ok v ->
     (forall d, v <> PDict d) ->
     let err := AttributeError ("'" ++ type_name v ++ "' object has no attribute 'get'") in
     execute_sql_handler w event st =
       (Ok (mk_envelope 500 json_headers (exception_text err)), st) /\
     cortex_analyst_chat_handler w event st =
       (Ok (mk_envelope 500 json_headers (exception_text err)), st)).
Proof.
  split.
  - intros err Hbody. split.
    + unfold execute_sql_handler, try_except, bind, lift. rewrite Hbody.
      apply on_exception_text.
    + unfold cortex_analyst_chat_handler, try_except, bind, lift. rewrite Hbody.
      apply (chat_except_answer err st).
  - intros v Hbody Hnd. cbv zeta.
    assert (Hget : forall k dflt,
              py_get v k dflt =
              Raise (AttributeError
                       ("'" ++ type_name v ++ "' object has no attribute 'get'"))).
    { intros k dflt. destruct v; try reflexivity. exfalso. eapply Hnd. reflexivity. }
    split.
    + unfold execute_sql_handler, try_except, bind, lift. rewrite Hbody, Hget.
      apply on_exception_text.
    + unfold cortex_analyst_chat_handler, try_except, bind, lift.
      rewrite Hbody, Hget. reflexivity.
Qed.

(** The chat handler once it sends: the call is logged and the answer
    depends on what [requests.post] returns. *)
Lemma chat_sends_outcome (w : world) (event d : pydict) (st : state) :
  sends w event d ->
  let st1 := with_call st (CallPost (sent_request w d)) in
  cortex_analyst_chat_handler w event st =
  match requests_post w (sent_request w d) with
  | Raise e => chat_except e st1
  | Ok response =>
      if status_code response =? 200 then
        match response_json response with
        | Raise e => chat_except e st1
        | Ok data =>
            match json_dumps data with
            | Ok b => (Ok (mk_envelope 200 json_headers b), st1)
            | Raise e => chat_except e st1
            end
        end
      else
        match json_dumps
                (PDict [("error", PStr ("Cortex Analyst API error: "
                                          ++ PyStr.of_Z (status_code response)));
                        ("details", error_data response)]) with
        | Ok b => (Ok (mk_envelope (status_code response) json_headers b), st1)
        | Raise e => chat_except e st1
        end
  end.
Proof.
  intros (Hbody & Hmsg & Hacc & Htok). cbv zeta.
  unfold cortex_analyst_chat_handler, try_except, bind, lift.
  rewrite Hbody. cbn [py_get].
  unfold sent_request, dict_get_default in Hmsg |- *.
  rewrite Hmsg. cbn [negb].
  destruct (String.eqb_spec (chat_account (getenv w "SNOWFLAKE_ACCOUNT" EmptyString))
              EmptyString) as [E|_]; [contradiction|].
  destruct (String.eqb_spec (getenv w "SNOWFLAKE_TOKEN" EmptyString) EmptyString)
    as [E|_]; [contradiction|].
  cbn [orb]. unfold post, bind, lift, log_call.
  match goal with |- context [requests_post w ?r] =>
    destruct (requests_post w r) as [response|e] end; [|reflexivity].
  destruct (status_code response =? 200).
  - unfold respond, bind, lift, ret.
    destruct (response_json response) as [data|e]; [|reflexivity].
    destruct (json_dumps data) as [b|e]; reflexivity.
  - unfold respond, bind, lift, ret.
    destruct (json_dumps _) as [b|e]; reflexivity.
Qed.

(** X7. When [requests.post] raises, the handler answers 500: with
    [REST API request failed: <message>] and the type [RequestException]
    for an exception of that family (no route, timeout), with the message
    and the class of the exception for any other.  The one call made is
    the POST. *)
Theorem X7_transport_failure_is_500 (w : world) (event d : pydict) (st : state)
  (err : exn) :
  sends w event d ->
  requests_post w (sent_request w d) = Raise err ->
  cortex_analyst_chat_handler w event st =
  (Ok (mk_envelope 500 json_headers
         (if exn_is_request err then transport_error_text err
          else exception_text err)),
   with_call st (CallPost (sent_request w d))).
Proof.
  intros Hsends Hpost.
  rewrite (chat_sends_outcome w event d st Hsends). cbv zeta.
  rewrite Hpost. apply chat_except_answer.
Qed.

(** X8. When the endpoint answers 200 with a body that decodes to JSON
    data, the handler answers 200 and its body is that data written by
    [json.dumps]: the answer of the service is relayed without a look at
    what it says. *)
Theorem X8_success_is_relayed (w : world) (event d : pydict) (st : state)
  (response : http_response) (data : pyval) :
  sends w event d ->
  requests_post w (sent_request w d) = Ok response ->
  status_code response = 200 ->
  json_decode (text response) = Ok data ->
  json_safe data = true ->
  exists b,
    json_dumps data = Ok b /\
    cortex_analyst_chat_handler w event st =
    (Ok (mk_envelope 200 json_headers b),
     with_call st (CallPost (sent_request w d))).
Proof.
  intros Hsends Hpost Hcode Hdata Hsafe.
  destruct (json_dumps_safe data Hsafe) as [b Hb]. exists b. split; [exact Hb|].
  rewrite (chat_sends_outcome w event d st Hsends). cbv zeta.
  rewrite Hpost, Hcode. cbn [Z.eqb Pos.eqb].
  unfold response_json. rewrite Hdata, Hb. reflexivity.
Qed.

(** X6. Whatever the event and the world, [cortex_analyst_chat_handler]
    returns an envelope with the JSON and CORS headers and raises nothing.
    It makes no call, or one: a POST, with a timeout of 120 seconds, to the
    analyst endpoint on the host named after the account of the URL.  It
    opens no connection and no cursor. *)
Theorem X6_chat_handler_always_answers (w : world) (event : pydict) (st : state) :
  exists e st',
    cortex_analyst_chat_handler w event st = (Ok e, st') /\
    headers e = json_headers /\
    chat_footprint w st st'.
Proof.
  assert (Hquiet : chat_footprint w st st) by (repeat split; now left).
  destruct (json_loads (event_body event)) as [v|e0] eqn:Hbody.
  2:{ unfold cortex_analyst_chat_handler, try_except, bind, lift. rewrite Hbody.
      destruct (exn_is_request e0); do 2 eexists;
        (split; [reflexivity|]); split; [reflexivity | exact Hquiet
                                        | reflexivity | exact Hquiet]. }
  destruct v as [| | | | | | d | | | | ];
    try (unfold cortex_analyst_chat_handler, try_except, bind, lift;
         rewrite Hbody; do 2 eexists; (split; [reflexivity|]);
         split; [reflexivity | exact Hquiet]).
  destruct (truthy (dict_get_default d "messages" (PList []))) eqn:Hmsg.
  2:{ unfold cortex_analyst_chat_handler, try_except, bind, lift. rewrite Hbody.
      cbn [py_get]. unfold dict_get_default in Hmsg. rewrite Hmsg. cbn [negb].
      do 2 eexists. split; [reflexivity|]. split; [reflexivity | exact Hquiet]. }
  destruct (String.eqb_spec (chat_account (getenv w "SNOWFLAKE_ACCOUNT" EmptyString))
              EmptyString) as [Ea|Ha].
  { unfold cortex_analyst_chat_handler, try_except, bind, lift. rewrite Hbody.
    cbn [py_get]. unfold dict_get_default in Hmsg. rewrite Hmsg. cbn [negb].
    rewrite Ea. cbn [String.eqb orb].
    do 2 eexists. split; [reflexivity|]. split; [reflexivity | exact Hquiet]. }
  destruct (String.eqb_spec (getenv w "SNOWFLAKE_TOKEN" EmptyString) EmptyString)
    as [Et|Ht].
  { unfold cortex_analyst_chat_handler, try_except, bind, lift. rewrite Hbody.
    cbn [py_get]. unfold dict_get_default in Hmsg. rewrite Hmsg. cbn [negb].
    rewrite Et. rewrite orb_true_r.
    do 2 eexists. split; [reflexivity|]. split; [reflexivity | exact Hquiet]. }
  assert (Hsends : sends w event d) by (repeat split; assumption).
  assert (Hposted : chat_footprint w st (with_call st (CallPost (sent_request w d)))).
  { repeat split. right. exists d. repeat split. }
  rewrite (chat_sends_outcome w event d st Hsends). cbv zeta.
  destruct (requests_post w (sent_request w d)) as [response|e1].
  2:{ rewrite chat_except_answer. do 2 eexists. split; [reflexivity|].
      split; [reflexivity | exact Hposted]. }
  destruct (status_code response =? 200).
  - destruct (response_json response) as [data|e2].
    2:{ rewrite chat_except_answer. do 2 eexists. split; [reflexivity|].
        split; [reflexivity | exact Hposted]. }
    destruct (json_dumps data) as [b|e3]; [|rewrite chat_except_answer];
      do 2 eexists; (split; [reflexivity|]); split;
        [reflexivity | exact Hposted | reflexivity | exact Hposted].
  - destruct (json_dumps _) as [b|e3]; [|rewrite chat_except_answer];
      do 2 eexists; (split; [reflexivity|]); split;
        [reflexivity | exact Hposted | reflexivity | exact Hposted].
Qed.
(* ================================================================== *)
(** ** Further properties: the connection test and the hello handler *)
(* ================================================================== *)

Lemma test_except_answer (e : exn) (st : state) :
  (if is_import_error e then
     respond 500 (PDict [("error", PStr "Snowflake connector not installed");
                         ("message", PStr "Run: pip install snowflake-connector-python")])
   else on_exception e) st =
  (Ok (mk_envelope 500 json_headers (test_except_text e)), st).
Proof. unfold test_except_text. destruct (is_import_error e); reflexivity. Qed.

(** The connection test once the credentials are there, by the outcome of
    each call. *)
Lemma test_handler_outcome (w : world) (event : pydict) (st : state) :
  credentials_set w = true ->
  let q := PStr test_query in
  let c1 := (calls st ++ [CallConnect (connection_args w)])%list in
  let c2 := (calls st ++ [CallConnect (connection_args w); CallExecute q])%list in
  let c3 := (calls st ++ [CallConnect (connection_args w); CallExecute q;
                          CallFetch])%list in
  let n := open_connections st in
  let m := open_cursors st in
  let failed e s := (Ok (mk_envelope 500 json_headers (test_except_text e)), s) in
  test_snowflake_handler w event st =
  match sf_connect w (connection_args w) with
  | Raise e => failed e (mk_state c1 n m)
  | Ok _ =>
      match sf_cursor w with
      | Raise e => failed e (mk_state c1 (S n) m)
      | Ok _ =>
          match sf_execute w q with
          | Raise e => failed e (mk_state c2 (S n) (S m))
          | Ok _ =>
              match sf_fetchone w q with
              | Raise e => failed e (mk_state c3 (S n) (S m))
              | Ok result =>
                  match connection_answer result with
                  | Ok b => (Ok (mk_envelope 200 json_headers b), mk_state c3 n m)
                  | Raise e => failed e (mk_state c3 n m)
                  end
              end
          end
      end
  end.
Proof.
  intros Hcred. cbv zeta.
  unfold test_snowflake_handler, try_except.
  unfold credentials_set in Hcred. rewrite Hcred. cbn [negb].
  unfold bind, connector_connect. fold (connection_args w).
  destruct (sf_connect w (connection_args w)) as [[]|e];
    [|apply test_except_answer].
  unfold conn_cursor. cbn [calls open_connections open_cursors].
  destruct (sf_cursor w) as [[]|e]; [|apply test_except_answer].
  unfold cursor_execute, cursor_fetchone, log_call, bind, lift.
  cbn [calls open_connections open_cursors].
  rewrite <- ?app_assoc. cbn [app].
  destruct (sf_execute w (PStr test_query)) as [[]|e]; [|apply test_except_answer].
  rewrite <- ?app_assoc. cbn [app].
  destruct (sf_fetchone w (PStr test_query)) as [result|e];
    [|apply test_except_answer].
  unfold cursor_close, conn_close, respond, bind, lift, ret, connection_answer.
  cbn [calls open_connections open_cursors Nat.pred].
  destruct (py_index result 0) as [r0|e]; [|apply test_except_answer].
  destruct (py_index result 1) as [r1|e]; [|apply test_except_answer].
  destruct (py_index result 2) as [r2|e]; [|apply test_except_answer].
  destruct (py_index result 3) as [r3|e]; [|apply test_except_answer].
  cbn [res_bind]. unfold connection_payload.
  destruct (json_dumps _) as [b|e]; [reflexivity | apply test_except_answer].
Qed.

(** X9. With the credentials set, the connection made and the test query
    answered by a row of at least four JSON values, the connection test
    answers 200 with the message of success and the first four values as
    version, warehouse, database and schema; it made three calls and
    closed the cursor and the connection. *)
Theorem X9_connection_test_success (w : world) (event : pydict) (st : state)
  (r0 r1 r2 r3 : pyval) (others : list pyval) :
  credentials_set w = true ->
  sf_connect w (connection_args w) = Ok tt ->
  sf_cursor w = Ok tt ->
  sf_execute w (PStr test_query) = Ok tt ->
  sf_fetchone w (PStr test_query) = Ok (PList (r0 :: r1 :: r2 :: r3 :: others)) ->
  json_safe r0 && json_safe r1 && json_safe r2 && json_safe r3 = true ->
  exists b,
    json_dumps (connection_payload r0 r1 r2 r3) = Ok b /\
    test_snowflake_handler w event st =
    (Ok (mk_envelope 200 json_headers b),
     mk_state (calls st ++ [CallConnect (connection_args w);
                            CallExecute (PStr test_query); CallFetch])
       (open_connections st) (open_cursors st)).
Proof.
  intros Hcred Hconn Hcur Hexec Hfetch Hsafe.
  assert (Hp : json_safe (connection_payload r0 r1 r2 r3) = true).
  { apply andb_true_iff in Hsafe. destruct Hsafe as [Hsafe H3].
    apply andb_true_iff in Hsafe. destruct Hsafe as [Hsafe H2].
    apply andb_true_iff in Hsafe. destruct Hsafe as [H0 H1].
    simpl. now rewrite H0, H1, H2, H3. }
  destruct (json_dumps_safe _ Hp) as [b Hb]. exists b. split; [exact Hb|].
  rewrite (test_handler_outcome w event st Hcred). cbv zeta.
  rewrite Hconn, Hcur, Hexec, Hfetch.
  unfold connection_answer. cbn [py_index nth_error res_bind]. now rewrite Hb.
Qed.

(** X10. The connection test closes the cursor and the connection before
    it reads the row.  When the query gives no row ([fetchone] returns
    [None]) or a row that is too short, the answer is 500, with
    ['NoneType' object is not subscriptable] or [tuple index out of range],
    and nothing is left open. *)
Theorem X10_connection_test_row_missing (w : world) (event : pydict) (st : state)
  (result : pyval) :
  credentials_set w = true ->
  sf_connect w (connection_args w) = Ok tt ->
  sf_cursor w = Ok tt ->
  sf_execute w (PStr test_query) = Ok tt ->
  sf_fetchone w (PStr test_query) = Ok result ->
  (result = PNone \/ exists row, result = PList row /\ (List.length row < 4)%nat) ->
  let err :=
    match result with
    | PNone => TypeError "'NoneType' object is not subscriptable"
    | _ => IndexError "tuple index out of range"
    end in
  test_snowflake_handler w event st =
  (Ok (mk_envelope 500 json_headers (exception_text err)),
   mk_state (calls st ++ [CallConnect (connection_args w);
                          CallExecute (PStr test_query); CallFetch])
     (open_connections st) (open_cursors st)).
Proof.
  intros Hcred Hconn Hcur Hexec Hfetch Hrow. cbv zeta.
  rewrite (test_handler_outcome w event st Hcred). cbv zeta.
  rewrite Hconn, Hcur, Hexec, Hfetch.
  destruct Hrow as [-> | (row & -> & Hlen)]; [reflexivity|].
  destruct row as [|a [|b [|c [|d row]]]]; simpl in Hlen; try lia; reflexivity.
Qed.

(** X11. Whatever the event and the world, the connection test returns an
    envelope with status 200, 400 or 500 and the JSON and CORS headers, and
    raises nothing.  It returns with the connection open exactly when the
    credentials were set, the connection was made and [cursor()],
    [execute] or [fetchone] raised. *)
Theorem X11_connection_test_always_answers (w : world) (event : pydict)
  (st : state) :
  exists e st',
    test_snowflake_handler w event st = (Ok e, st') /\
    (statusCode e = 200 \/ statusCode e = 400 \/ statusCode e = 500) /\
    headers e = json_headers /\
    open_connections st' =
      (open_connections st + if test_connection_left_open w then 1 else 0)%nat.
Proof.
  unfold test_connection_left_open.
  destruct (credentials_set w) eqn:Hcred.
  2:{ unfold test_snowflake_handler, try_except.
      unfold credentials_set in Hcred. rewrite Hcred. cbn [negb andb].
      do 2 eexists. split; [reflexivity|]. cbn. repeat split; auto. }
  rewrite (test_handler_outcome w event st Hcred). cbv zeta. cbn [andb].
  destruct (sf_connect w (connection_args w)) as [[]|e1]; cbn [is_ok andb negb].
  2:{ do 2 eexists. split; [reflexivity|]. cbn. repeat split; auto. }
  destruct (sf_cursor w) as [[]|e2]; cbn [is_ok andb negb].
  2:{ do 2 eexists. split; [reflexivity|]. cbn. repeat split; auto; lia. }
  destruct (sf_execute w (PStr test_query)) as [[]|e3]; cbn [is_ok andb negb].
  2:{ do 2 eexists. split; [reflexivity|]. cbn. repeat split; auto; lia. }
  destruct (sf_fetchone w (PStr test_query)) as [result|e4]; cbn [is_ok andb negb].
  2:{ do 2 eexists. split; [reflexivity|]. cbn. repeat split; auto; lia. }
  destruct (connection_answer result) as [b|e5];
    do 2 eexists; (split; [reflexivity|]); cbn; repeat split; auto.
Qed.




End Handlers.

(* ================================================================== *)
(** ** The handlers on the scenarios *)
(* ================================================================== *)

(** C3. A statement the server refuses: the handler answers 500 and the
    invocation ends with one connection and one cursor open.  The handler
    closes them after [fetchall] only, so an exception raised by
    [cursor.execute] goes past both [close] calls. *)
Theorem C3_statement_error_leaves_connection_open :
  run (execute_sql_handler Sample.float_repr Sample.decode Scenario.failing_statement
         (Scenario.event_with (Scenario.sql_body "SELECT * FROM MISSING"))) =
  (Ok (mk_envelope 500 json_headers
         (typed_error_text "Object 'MISSING' does not exist or not authorized."
            "ProgrammingError")),
   mk_state [CallConnect Scenario.the_connection;
             CallExecute (PStr "SELECT * FROM MISSING")] 1 1).
Proof. vm_compute. reflexivity. Qed.

(** C5. A row with a [TIME] cell: the cell is a [datetime.time], the loop
    leaves it as it is, [json.dumps] raises [TypeError] on it and the
    handler answers 500 instead of the rows. *)
Theorem C5_time_cell_is_not_serialized :
  normalize_rows ["T"] [[PObject "time"]] = [[("T", PObject "time")]] /\
  json_safe (PObject "time") = false /\
  run (execute_sql_handler Sample.float_repr Sample.decode Scenario.time_column
         (Scenario.event_with (Scenario.sql_body "SELECT T FROM CLOCK"))) =
  (Ok (mk_envelope 500 json_headers
         (typed_error_text "Object of type time is not JSON serializable"
            "TypeError")),
   mk_state [CallConnect Scenario.the_connection;
             CallExecute (PStr "SELECT T FROM CLOCK"); CallFetch] 0 0).
Proof. repeat split; vm_compute; reflexivity. Qed.

(** C7. An account with text after the domain: the connection path keeps
    the identifier before the domain, the chat handler removes the domain
    and keeps the text after it, which then ends up in the host name of
    the URL.  On an account that ends with the domain the two agree, and
    the URL gets hyphens for underscores. *)
Theorem C7_chat_account_keeps_text_after_domain :
  clean_account (Some "ABC123.snowflakecomputing.com/console") = Some "ABC123" /\
  chat_account "ABC123.snowflakecomputing.com/console" = "ABC123/console" /\
  clean_account (Some "ABC123.snowflakecomputing.com") = Some "ABC123" /\
  chat_account "ABC123.snowflakecomputing.com" = "ABC123" /\
  account_url "ABC_123" = "ABC-123".
Proof. repeat split; vm_compute; reflexivity. Qed.

(** C4 fails as stated: a statement of one space is not turned down; the
    handler connects and runs it. *)
Lemma C4_whitespace_statement_connects :
  whitespace_only " " = true /\
  exists e st,
    run (execute_sql_handler Sample.float_repr Sample.decode Scenario.bare (Scenario.event_with (Scenario.sql_body " "))) =
    (Ok e, st) /\
    statusCode e <> 400 /\
    In (CallConnect (connection_args Scenario.bare)) (calls st).
Proof.
  split; [reflexivity|]. do 2 eexists. split; [vm_compute; reflexivity|].
  split; [discriminate | left; reflexivity].
Qed.


(* ================================================================== *)
(** ** The properties at concrete inputs *)
(* ================================================================== *)

(** C1 on two requests: an empty [sql] to the SQL handler and an empty
    list of [messages] to the chat handler. *)
Lemma C1_witness :
  json_loads Sample.decode
    (event_body (Scenario.event_with (Scenario.sql_body EmptyString))) =
    Ok (PDict [("sql", PStr EmptyString)]) /\
  empty_or_missing [("sql", PStr EmptyString)] "sql" /\
  execute_sql_handler Sample.float_repr Sample.decode Scenario.one_row
    (Scenario.event_with (Scenario.sql_body EmptyString)) initial_state =
  (Ok (mk_envelope 400 json_headers (error_text "No SQL query provided")),
   initial_state) /\
  json_loads Sample.decode
    (event_body (Scenario.event_with Scenario.no_messages_body)) =
    Ok (PDict [("messages", PList [])]) /\
  empty_or_missing [("messages", PList [])] "messages" /\
  cortex_analyst_chat_handler Sample.float_repr Sample.py_repr Sample.decode
    Scenario.forbidden (Scenario.event_with Scenario.no_messages_body)
    initial_state =
  (Ok (mk_envelope 400 json_headers (error_text "No messages provided")),
   initial_state).
Proof.
  assert (H1 : json_loads Sample.decode
                 (event_body (Scenario.event_with (Scenario.sql_body EmptyString))) =
               Ok (PDict [("sql", PStr EmptyString)])) by (vm_compute; reflexivity).
  assert (H2 : json_loads Sample.decode
                 (event_body (Scenario.event_with Scenario.no_messages_body)) =
               Ok (PDict [("messages", PList [])])) by (vm_compute; reflexivity).
  split; [exact H1|]. split; [reflexivity|]. split.
  - apply (C1_missing_input_is_rejected Sample.float_repr Sample.py_repr
             Sample.decode Scenario.one_row _ _ initial_state H1). reflexivity.
  - split; [exact H2|]. split; [reflexivity|].
    apply (C1_missing_input_is_rejected Sample.float_repr Sample.py_repr
             Sample.decode Scenario.forbidden _ _ initial_state H2). reflexivity.
Defined.


(** C4 on the statement [SELECT 1]: the handler connects first. *)
Lemma C4_witness :
  json_loads Sample.decode
    (event_body (Scenario.event_with (Scenario.sql_body "SELECT 1"))) =
    Ok (PDict [("sql", PStr "SELECT 1")]) /\
  dict_get [("sql", PStr "SELECT 1")] "sql" = Some (PStr "SELECT 1") /\
  "SELECT 1" <> EmptyString /\
  exists r st' rest,
    execute_sql_handler Sample.float_repr Sample.decode Scenario.one_row
      (Scenario.event_with (Scenario.sql_body "SELECT 1")) initial_state = (r, st') /\
    calls st' =
    (calls initial_state ++ CallConnect (connection_args Scenario.one_row) :: rest)%list.
Proof.
  assert (H1 : json_loads Sample.decode
                 (event_body (Scenario.event_with (Scenario.sql_body "SELECT 1"))) =
               Ok (PDict [("sql", PStr "SELECT 1")])) by (vm_compute; reflexivity).
  split; [exact H1|]. split; [reflexivity|]. split; [discriminate|].
  apply (C4_only_the_empty_statement_fails_fast Sample.float_repr Sample.decode
           Scenario.one_row _ _ initial_state "SELECT 1" H1 eq_refl).
  discriminate.
Defined.

(** C6 on two rows of three columns. *)
Lemma C6_witness :
  NoDup ["V"; "PRICE"; "DAY"] /\
  (forall row,
     In row [[PInt 1; PDecimal (mk_decimal false 1250 (-2)); PDate (mk_date 2024 3 7)];
             [PInt 2; PNone; PDate (mk_date 2024 3 8)]] ->
     List.length row = List.length ["V"; "PRICE"; "DAY"]) /\
  List.length
    (normalize_rows ["V"; "PRICE"; "DAY"]
       [[PInt 1; PDecimal (mk_decimal false 1250 (-2)); PDate (mk_date 2024 3 7)];
        [PInt 2; PNone; PDate (mk_date 2024 3 8)]]) = 2%nat.
Proof.
  assert (Hnd : NoDup ["V"; "PRICE"; "DAY"]).
  { repeat constructor; simpl; intros H;
      repeat (destruct H as [H | H]; [discriminate H|]); exact H. }
  assert (Hrows : forall row,
     In row [[PInt 1; PDecimal (mk_decimal false 1250 (-2)); PDate (mk_date 2024 3 7)];
             [PInt 2; PNone; PDate (mk_date 2024 3 8)]] ->
     List.length row = List.length ["V"; "PRICE"; "DAY"]).
  { intros row [<- | [<- | []]]; reflexivity. }
  split; [exact Hnd|]. split; [exact Hrows|].
  exact (proj1 (C6_normalization_preserves_shape _ _ Hnd Hrows)).
Defined.

(** C8 on the endpoint that answers 403 with [{"message":"forbidden"}]. *)
Lemma C8_witness :
  reached Sample.py_repr Sample.decode Scenario.forbidden
    (Scenario.event_with Scenario.chat_body)
    [("messages", PList [PDict [("role", PStr "user")]])]
    (mk_http_response 403
       ("{" ++ PyStr.quoted "message" ++ ":" ++ PyStr.quoted "forbidden" ++ "}")) /\
  cortex_analyst_chat_handler Sample.float_repr Sample.py_repr Sample.decode
    Scenario.forbidden (Scenario.event_with Scenario.chat_body) initial_state =
  (Ok (mk_envelope 403 json_headers (upstream_error_text 403 forbidden_text)),
   with_call initial_state
     (CallPost (sent_request Sample.py_repr Scenario.forbidden
                  [("messages", PList [PDict [("role", PStr "user")]])]))).
Proof.
  assert (Hreach : reached Sample.py_repr Sample.decode Scenario.forbidden
    (Scenario.event_with Scenario.chat_body)
    [("messages", PList [PDict [("role", PStr "user")]])]
    (mk_http_response 403
       ("{" ++ PyStr.quoted "message" ++ ":" ++ PyStr.quoted "forbidden" ++ "}"))).
  { unfold reached. split; [vm_compute; reflexivity|]. split; [reflexivity|].
    split; [vm_compute; discriminate|]. split; [vm_compute; discriminate|].
    reflexivity. }
  split; [exact Hreach|].
  refine (proj2 (proj2 (C8_upstream_error_is_relayed Sample.float_repr Sample.py_repr
                          Sample.decode Scenario.forbidden _ _ initial_state _
                          Hreach _ _)) eq_refl _).
  - discriminate.
  - intros v Hv. vm_compute in Hv. injection Hv as <-. reflexivity.
  - vm_compute. reflexivity.
Defined.


(** C10 on the event the local server builds for a POST without payload. *)
Lemma C10_witness :
  fr_data (mk_flask_request EmptyString [] [("Host", "127.0.0.1:3000")] "127.0.0.1") =
    EmptyString /\
  dict_get
    (create_api_gateway_event
       (mk_flask_request EmptyString [] [("Host", "127.0.0.1:3000")] "127.0.0.1")
       "/chat" "POST") "body" = Some PNone /\
  cortex_analyst_chat_handler Sample.float_repr Sample.py_repr Sample.decode
    Scenario.forbidden
    (create_api_gateway_event
       (mk_flask_request EmptyString [] [("Host", "127.0.0.1:3000")] "127.0.0.1")
       "/chat" "POST") initial_state =
  (Ok (mk_envelope 500 json_headers
         (typed_error_text
            "the JSON object must be str, bytes or bytearray, not NoneType"
            "TypeError")),
   initial_state).
Proof.
  destruct (C10_none_body_is_500 Sample.float_repr Sample.py_repr Sample.decode)
    as [Hevent Hanswer].
  pose proof (Hevent
    (mk_flask_request EmptyString [] [("Host", "127.0.0.1:3000")] "127.0.0.1")
    "/chat" "POST" eq_refl) as Hbody.
  split; [reflexivity|]. split; [exact Hbody|].
  exact (proj1 (proj2 (Hanswer Scenario.forbidden _ initial_state Hbody))).
Defined.

(* ================================================================== *)
(** ** The further properties at concrete inputs *)
(* ================================================================== *)

(** X2 on the statement that yields [(1, Decimal("12.50"), date(2024, 3, 7))]. *)
Lemma X2_witness :
  json_loads Sample.decode
    (event_body (Scenario.event_with (Scenario.sql_body "SELECT 1"))) =
    Ok (PDict [("sql", PStr "SELECT 1")]) /\
  Forall (Forall (fun v => json_cell v = true))
    [[PInt 1; PDecimal (mk_decimal false 1250 (-2)); PDate (mk_date 2024 3 7)]] /\
  exists b,
    execute_sql_handler Sample.float_repr Sample.decode Scenario.one_row
      (Scenario.event_with (Scenario.sql_body "SELECT 1")) initial_state =
    (Ok (mk_envelope 200 json_headers b),
     mk_state [CallConnect (connection_args Scenario.one_row);
               CallExecute (PStr "SELECT 1"); CallFetch] 0 0).
Proof.
  assert (H1 : json_loads Sample.decode
                 (event_body (Scenario.event_with (Scenario.sql_body "SELECT 1"))) =
               Ok (PDict [("sql", PStr "SELECT 1")])) by (vm_compute; reflexivity).
  assert (H2 : Forall (Forall (fun v => json_cell v = true))
    [[PInt 1; PDecimal (mk_decimal false 1250 (-2)); PDate (mk_date 2024 3 7)]])
    by (repeat constructor).
  split; [exact H1|]. split; [exact H2|].
  destruct (X2_statement_success Sample.float_repr Sample.decode Scenario.one_row
              _ _ initial_state (PStr "SELECT 1") _ H1 eq_refl eq_refl eq_refl
              eq_refl eq_refl eq_refl H2) as (b & _ & Hb).
  exists b. exact Hb.
Defined.


(** X5 on a body that is no JSON and on a body that is a list. *)
Lemma X5_witness :
  execute_sql_handler Sample.float_repr Sample.decode Scenario.one_row
    (Scenario.event_with Scenario2.broken_body) initial_state =
  (Ok (mk_envelope 500 json_headers (exception_text Sample.JSONDecodeError)),
   initial_state) /\
  cortex_analyst_chat_handler Sample.float_repr Sample.py_repr Sample.decode
    Scenario.forbidden (Scenario.event_with Scenario2.list_body) initial_state =
  (Ok (mk_envelope 500 json_headers
         (exception_text (AttributeError "'list' object has no attribute 'get'"))),
   initial_state).
Proof.
  split.
  - refine (proj1 (proj1 (X5_malformed_body_is_500 Sample.float_repr Sample.py_repr
                            Sample.decode Scenario.one_row
                            (Scenario.event_with Scenario2.broken_body)
                            initial_state) Sample.JSONDecodeError _)).
    vm_compute. reflexivity.
  - refine (proj2 (proj2 (X5_malformed_body_is_500 Sample.float_repr Sample.py_repr
                            Sample.decode Scenario.forbidden
                            (Scenario.event_with Scenario2.list_body)
                            initial_state) (PList [PInt 1; PInt 2]) _ _)).
    + vm_compute. reflexivity.
    + intros d. discriminate.
Defined.

(** X7 on a world where the endpoint cannot be reached. *)
Lemma X7_witness :
  sends Sample.decode Scenario.failing_statement
    (Scenario.event_with Scenario.chat_body)
    [("messages", PList [PDict [("role", PStr "user")]])] /\
  cortex_analyst_chat_handler Sample.float_repr Sample.py_repr Sample.decode
    Scenario.failing_statement (Scenario.event_with Scenario.chat_body)
    initial_state =
  (Ok (mk_envelope 500 json_headers (transport_error_text Scenario.unreachable)),
   with_call initial_state
     (CallPost (sent_request Sample.py_repr Scenario.failing_statement
                  [("messages", PList [PDict [("role", PStr "user")]])]))).
Proof.
  assert (Hs : sends Sample.decode Scenario.failing_statement
    (Scenario.event_with Scenario.chat_body)
    [("messages", PList [PDict [("role", PStr "user")]])]).
  { split; [vm_compute; reflexivity|]. split; [reflexivity|].
    split; vm_compute; discriminate. }
  split; [exact Hs|].
  exact (X7_transport_failure_is_500 Sample.float_repr Sample.py_repr Sample.decode
           Scenario.failing_statement _ _ initial_state Scenario.unreachable
           Hs eq_refl).
Defined.

(** X8 on a world where the endpoint answers 200. *)
Lemma X8_witness :
  sends Sample.decode Scenario2.answering
    (Scenario.event_with Scenario.chat_body)
    [("messages", PList [PDict [("role", PStr "user")]])] /\
  exists b,
    json_dumps Sample.float_repr (PDict [("request_id", PStr "r-1")]) = Ok b /\
    cortex_analyst_chat_handler Sample.float_repr Sample.py_repr Sample.decode
      Scenario2.answering (Scenario.event_with Scenario.chat_body) initial_state =
    (Ok (mk_envelope 200 json_headers b),
     with_call initial_state
       (CallPost (sent_request Sample.py_repr Scenario2.answering
                    [("messages", PList [PDict [("role", PStr "user")]])]))).
Proof.
  assert (Hs : sends Sample.decode Scenario2.answering
    (Scenario.event_with Scenario.chat_body)
    [("messages", PList [PDict [("role", PStr "user")]])]).
  { split; [vm_compute; reflexivity|]. split; [reflexivity|].
    split; vm_compute; discriminate. }
  split; [exact Hs|].
  refine (X8_success_is_relayed Sample.float_repr Sample.py_repr Sample.decode
            Scenario2.answering _ _ initial_state _
            (PDict [("request_id", PStr "r-1")]) Hs eq_refl eq_refl _ eq_refl).
  vm_compute. reflexivity.
Defined.

(** X9 on a world where the test query is answered. *)
Lemma X9_witness :
  credentials_set Scenario2.connected = true /\
  exists b,
    test_snowflake_handler Sample.float_repr Scenario2.connected [] initial_state =
    (Ok (mk_envelope 200 json_headers b),
     mk_state [CallConnect (connection_args Scenario2.connected);
               CallExecute (PStr test_query); CallFetch] 0 0).
Proof.
  split; [reflexivity|].
  destruct (X9_connection_test_success Sample.float_repr Scenario2.connected []
              initial_state (PStr "9.1.0") (PStr "COMPUTE_WH") PNone (PStr "PUBLIC") [])
    as (b & _ & Hb); try reflexivity.
  exists b. exact Hb.
Defined.

(** X10 on a world where the test query gives no row. *)
Lemma X10_witness :
  sf_fetchone Scenario.forbidden (PStr test_query) = Ok PNone /\
  test_snowflake_handler Sample.float_repr Scenario.forbidden [] initial_state =
  (Ok (mk_envelope 500 json_headers
         (exception_text (TypeError "'NoneType' object is not subscriptable"))),
   mk_state [CallConnect (connection_args Scenario.forbidden);
             CallExecute (PStr test_query); CallFetch] 0 0).
Proof.
  split; [reflexivity|].
  apply (X10_connection_test_row_missing Sample.float_repr Scenario.forbidden []
           initial_state PNone); try reflexivity.
  left. reflexivity.
Defined.


(** X13 on an account given as a host name. *)
Lemma X13_witness :
  clean_account (Some "ABC123.snowflakecomputing.com") = Some "ABC123" /\
  PyStr.contains snowflake_domain "ABC123" = false /\
  clean_account (Some "ABC123") = Some "ABC123".
Proof.
  split; [reflexivity|].
  exact (proj1 X13_clean_account_is_free_of_domain
           "ABC123.snowflakecomputing.com" "ABC123" eq_refl).
Defined.

(** X14 on an account without underscore. *)
Lemma X14_witness :
  PyStr.contains "_" "ABC123" = false /\ account_url "ABC123" = "ABC123".
Proof.
  split; [reflexivity|].
  exact (proj2 (proj2 (X14_account_url_has_no_underscore "ABC123")) eq_refl).
Defined.
